(** * Chat session controller of the chat component

    A shallow embedding of the [ChatComponent] class behind the
    [chat-component] custom element: the reactive fields become a record, every handler becomes a function on that record,
    and the [async] submit handler is cut at its two [await] points into
    segments that are resumed by environment events.  The collaborators that
    live outside the component are taken as parameters (the sanitizer, the
    text extractor, the clock and the global configuration) or act through
    events (the transport and the stream parser). *)

From Stdlib Require Import ZArith Ascii.
From stdpp Require Import base option list strings gmap.

Open Scope string_scope.
Open Scope list_scope.

Notation "c |> f" := (f c) (at level 45, left associativity, only parsing).

(** ** Data model *)

(** A citation is a heap object: [oid] is the identity of the object (what
    [===] and [Set] membership compare), [ref] and [text] are its fields. *)
Module Citation.
Record t := { oid : nat; ref : nat; text : string }.
End Citation.

Record ChatMessageText := { value : string; followingSteps : list string }.

Record ChatError := { message : string }.

(** [followupQuestions], [citations] and [error] are optional properties of
    a thread entry: [None] stands for an absent key. *)
Record ChatThreadEntry := {
  text : list ChatMessageText;
  followupQuestions : option (list string);
  citations : option (list Citation.t);
  timestamp : string;
  isUserMessage : bool;
  error : option ChatError }.

Definition set_error (e : option ChatError) (t : ChatThreadEntry) : ChatThreadEntry :=
  {| text := text t; followupQuestions := followupQuestions t; citations := citations t;
     timestamp := timestamp t; isUserMessage := isUserMessage t; error := e |}.

(** The non-streamed response body (api/models.ts, [ChatResponse]). *)
Module Bot.
Record Context := { data_points : option (list string); thoughts : option string }.
Record Message := { content : string; role : string; context : option Context }.
Record Choice := { index : nat; message : Message }.
Record Response := { choices : list Choice }.
End Bot.

(** [apiResponse] holds [{}] initially, then either a parsed body or a
    fetch [Response] whose body is a byte stream ([body] names the stream). *)
Inductive ApiResponse :=
| EmptyObject
| Full (r : Bot.Response)
| Streamed (body : nat).

(** What [processText] returns: the rewritten text and the three arrays. *)
Record ProcessTextReturn := {
  replacedText : string;
  arrays0 : list Citation.t;
  arrays1 : list string;
  arrays2 : list string }.

(** What [parseStreamedMessages] resolves with. *)
Record StreamResult := { result_thoughts : option string; result_data_points : list string }.

(** A value caught by [catch (error_: any)]: [null]/[undefined], or an
    error object whose optional numeric [code] is the HTTP status. *)
Inductive Thrown :=
| ThrownNullish
| ThrownError (code : option Z).

(** [error?.code] *)
Definition errorCode (e : Thrown) : option Z :=
  match e with ThrownNullish => None | ThrownError code => code end.

(** A [TypeError] raised by the runtime carries no [code]. *)
Definition TypeError : Thrown := ThrownError None.

(** The fields of the component that its handlers read or write.
    [questionInput] is the value of the [#question-input] element,
    [abortController] the address of the current [AbortController] object.
    [threadGeneration] is not a field of the class: it tells which entry
    objects the array in [chatThread] holds.  The array is only ever
    replaced, by a spread of itself with one more entry, which shares every
    entry object with it, or by a new empty array, which shares none; the
    generation counts the latter, so that within a generation the entry at a
    position is one object for as long as the position exists.
    Fields that only the templates use ([inputPosition], [selectedCitation],
    [selectedAsideTab], the labels) and the class toggles on the shadow DOM
    are left out. *)
Record ChatComponent := {
  interactionModel : string;
  apiUrl : string;
  useStream : bool;
  overrides : gmap string string;
  currentQuestion : string;
  questionInput : string;
  isDisabled : bool;
  isChatStarted : bool;
  isResetInput : bool;
  isAwaitingResponse : bool;
  hasAPIError : bool;
  isResponseCopied : bool;
  isShowingThoughtProcess : bool;
  canShowThoughtProcess : bool;
  isDefaultPromptsEnabled : bool;
  apiResponse : ApiResponse;
  chatThread : list ChatThreadEntry;
  threadGeneration : nat;
  chatThoughts : option string;
  chatDataPoints : list string;
  abortController : nat;
  isProcessingResponse : bool }.

(** Field assignments [this.f = v]. *)
Definition set_interactionModel (v : string) (c : ChatComponent) : ChatComponent :=
  {| interactionModel := v; apiUrl := apiUrl c; useStream := useStream c;
     overrides := overrides c; currentQuestion := currentQuestion c;
     questionInput := questionInput c; isDisabled := isDisabled c;
     isChatStarted := isChatStarted c; isResetInput := isResetInput c;
     isAwaitingResponse := isAwaitingResponse c; hasAPIError := hasAPIError c;
     isResponseCopied := isResponseCopied c;
     isShowingThoughtProcess := isShowingThoughtProcess c;
     canShowThoughtProcess := canShowThoughtProcess c;
     isDefaultPromptsEnabled := isDefaultPromptsEnabled c; apiResponse := apiResponse c;
     chatThread := chatThread c; threadGeneration := threadGeneration c;
     chatThoughts := chatThoughts c; chatDataPoints := chatDataPoints c;
     abortController := abortController c;
     isProcessingResponse := isProcessingResponse c |}.

Definition set_useStream (v : bool) (c : ChatComponent) : ChatComponent :=
  {| interactionModel := interactionModel c; apiUrl := apiUrl c; useStream := v;
     overrides := overrides c; currentQuestion := currentQuestion c;
     questionInput := questionInput c; isDisabled := isDisabled c;
     isChatStarted := isChatStarted c; isResetInput := isResetInput c;
     isAwaitingResponse := isAwaitingResponse c; hasAPIError := hasAPIError c;
     isResponseCopied := isResponseCopied c;
     isShowingThoughtProcess := isShowingThoughtProcess c;
     canShowThoughtProcess := canShowThoughtProcess c;
     isDefaultPromptsEnabled := isDefaultPromptsEnabled c; apiResponse := apiResponse c;
     chatThread := chatThread c; threadGeneration := threadGeneration c;
     chatThoughts := chatThoughts c; chatDataPoints := chatDataPoints c;
     abortController := abortController c;
     isProcessingResponse := isProcessingResponse c |}.

Definition set_currentQuestion (v : string) (c : ChatComponent) : ChatComponent :=
  {| interactionModel := interactionModel c; apiUrl := apiUrl c; useStream := useStream c;
     overrides := overrides c; currentQuestion := v; questionInput := questionInput c;
     isDisabled := isDisabled c; isChatStarted := isChatStarted c;
     isResetInput := isResetInput c; isAwaitingResponse := isAwaitingResponse c;
     hasAPIError := hasAPIError c; isResponseCopied := isResponseCopied c;
     isShowingThoughtProcess := isShowingThoughtProcess c;
     canShowThoughtProcess := canShowThoughtProcess c;
     isDefaultPromptsEnabled := isDefaultPromptsEnabled c; apiResponse := apiResponse c;
     chatThread := chatThread c; threadGeneration := threadGeneration c;
     chatThoughts := chatThoughts c; chatDataPoints := chatDataPoints c;
     abortController := abortController c;
     isProcessingResponse := isProcessingResponse c |}.

Definition set_questionInput (v : string) (c : ChatComponent) : ChatComponent :=
  {| interactionModel := interactionModel c; apiUrl := apiUrl c; useStream := useStream c;
     overrides := overrides c; currentQuestion := currentQuestion c; questionInput := v;
     isDisabled := isDisabled c; isChatStarted := isChatStarted c;
     isResetInput := isResetInput c; isAwaitingResponse := isAwaitingResponse c;
     hasAPIError := hasAPIError c; isResponseCopied := isResponseCopied c;
     isShowingThoughtProcess := isShowingThoughtProcess c;
     canShowThoughtProcess := canShowThoughtProcess c;
     isDefaultPromptsEnabled := isDefaultPromptsEnabled c; apiResponse := apiResponse c;
     chatThread := chatThread c; threadGeneration := threadGeneration c;
     chatThoughts := chatThoughts c; chatDataPoints := chatDataPoints c;
     abortController := abortController c;
     isProcessingResponse := isProcessingResponse c |}.

Definition set_isDisabled (v : bool) (c : ChatComponent) : ChatComponent :=
  {| interactionModel := interactionModel c; apiUrl := apiUrl c; useStream := useStream c;
     overrides := overrides c; currentQuestion := currentQuestion c;
     questionInput := questionInput c; isDisabled := v; isChatStarted := isChatStarted c;
     isResetInput := isResetInput c; isAwaitingResponse := isAwaitingResponse c;
     hasAPIError := hasAPIError c; isResponseCopied := isResponseCopied c;
     isShowingThoughtProcess := isShowingThoughtProcess c;
     canShowThoughtProcess := canShowThoughtProcess c;
     isDefaultPromptsEnabled := isDefaultPromptsEnabled c; apiResponse := apiResponse c;
     chatThread := chatThread c; threadGeneration := threadGeneration c;
     chatThoughts := chatThoughts c; chatDataPoints := chatDataPoints c;
     abortController := abortController c;
     isProcessingResponse := isProcessingResponse c |}.

Definition set_isChatStarted (v : bool) (c : ChatComponent) : ChatComponent :=
  {| interactionModel := interactionModel c; apiUrl := apiUrl c; useStream := useStream c;
     overrides := overrides c; currentQuestion := currentQuestion c;
     questionInput := questionInput c; isDisabled := isDisabled c; isChatStarted := v;
     isResetInput := isResetInput c; isAwaitingResponse := isAwaitingResponse c;
     hasAPIError := hasAPIError c; isResponseCopied := isResponseCopied c;
     isShowingThoughtProcess := isShowingThoughtProcess c;
     canShowThoughtProcess := canShowThoughtProcess c;
     isDefaultPromptsEnabled := isDefaultPromptsEnabled c; apiResponse := apiResponse c;
     chatThread := chatThread c; threadGeneration := threadGeneration c;
     chatThoughts := chatThoughts c; chatDataPoints := chatDataPoints c;
     abortController := abortController c;
     isProcessingResponse := isProcessingResponse c |}.

Definition set_isResetInput (v : bool) (c : ChatComponent) : ChatComponent :=
  {| interactionModel := interactionModel c; apiUrl := apiUrl c; useStream := useStream c;
     overrides := overrides c; currentQuestion := currentQuestion c;
     questionInput := questionInput c; isDisabled := isDisabled c;
     isChatStarted := isChatStarted c; isResetInput := v;
     isAwaitingResponse := isAwaitingResponse c; hasAPIError := hasAPIError c;
     isResponseCopied := isResponseCopied c;
     isShowingThoughtProcess := isShowingThoughtProcess c;
     canShowThoughtProcess := canShowThoughtProcess c;
     isDefaultPromptsEnabled := isDefaultPromptsEnabled c; apiResponse := apiResponse c;
     chatThread := chatThread c; threadGeneration := threadGeneration c;
     chatThoughts := chatThoughts c; chatDataPoints := chatDataPoints c;
     abortController := abortController c;
     isProcessingResponse := isProcessingResponse c |}.

Definition set_isAwaitingResponse (v : bool) (c : ChatComponent) : ChatComponent :=
  {| interactionModel := interactionModel c; apiUrl := apiUrl c; useStream := useStream c;
     overrides := overrides c; currentQuestion := currentQuestion c;
     questionInput := questionInput c; isDisabled := isDisabled c;
     isChatStarted := isChatStarted c; isResetInput := isResetInput c;
     isAwaitingResponse := v; hasAPIError := hasAPIError c;
     isResponseCopied := isResponseCopied c;
     isShowingThoughtProcess := isShowingThoughtProcess c;
     canShowThoughtProcess := canShowThoughtProcess c;
     isDefaultPromptsEnabled := isDefaultPromptsEnabled c; apiResponse := apiResponse c;
     chatThread := chatThread c; threadGeneration := threadGeneration c;
     chatThoughts := chatThoughts c; chatDataPoints := chatDataPoints c;
     abortController := abortController c;
     isProcessingResponse := isProcessingResponse c |}.

Definition set_hasAPIError (v : bool) (c : ChatComponent) : ChatComponent :=
  {| interactionModel := interactionModel c; apiUrl := apiUrl c; useStream := useStream c;
     overrides := overrides c; currentQuestion := currentQuestion c;
     questionInput := questionInput c; isDisabled := isDisabled c;
     isChatStarted := isChatStarted c; isResetInput := isResetInput c;
     isAwaitingResponse := isAwaitingResponse c; hasAPIError := v;
     isResponseCopied := isResponseCopied c;
     isShowingThoughtProcess := isShowingThoughtProcess c;
     canShowThoughtProcess := canShowThoughtProcess c;
     isDefaultPromptsEnabled := isDefaultPromptsEnabled c; apiResponse := apiResponse c;
     chatThread := chatThread c; threadGeneration := threadGeneration c;
     chatThoughts := chatThoughts c; chatDataPoints := chatDataPoints c;
     abortController := abortController c;
     isProcessingResponse := isProcessingResponse c |}.

Definition set_isResponseCopied (v : bool) (c : ChatComponent) : ChatComponent :=
  {| interactionModel := interactionModel c; apiUrl := apiUrl c; useStream := useStream c;
     overrides := overrides c; currentQuestion := currentQuestion c;
     questionInput := questionInput c; isDisabled := isDisabled c;
     isChatStarted := isChatStarted c; isResetInput := isResetInput c;
     isAwaitingResponse := isAwaitingResponse c; hasAPIError := hasAPIError c;
     isResponseCopied := v; isShowingThoughtProcess := isShowingThoughtProcess c;
     canShowThoughtProcess := canShowThoughtProcess c;
     isDefaultPromptsEnabled := isDefaultPromptsEnabled c; apiResponse := apiResponse c;
     chatThread := chatThread c; threadGeneration := threadGeneration c;
     chatThoughts := chatThoughts c; chatDataPoints := chatDataPoints c;
     abortController := abortController c;
     isProcessingResponse := isProcessingResponse c |}.

Definition set_isShowingThoughtProcess (v : bool) (c : ChatComponent) : ChatComponent :=
  {| interactionModel := interactionModel c; apiUrl := apiUrl c; useStream := useStream c;
     overrides := overrides c; currentQuestion := currentQuestion c;
     questionInput := questionInput c; isDisabled := isDisabled c;
     isChatStarted := isChatStarted c; isResetInput := isResetInput c;
     isAwaitingResponse := isAwaitingResponse c; hasAPIError := hasAPIError c;
     isResponseCopied := isResponseCopied c; isShowingThoughtProcess := v;
     canShowThoughtProcess := canShowThoughtProcess c;
     isDefaultPromptsEnabled := isDefaultPromptsEnabled c; apiResponse := apiResponse c;
     chatThread := chatThread c; threadGeneration := threadGeneration c;
     chatThoughts := chatThoughts c; chatDataPoints := chatDataPoints c;
     abortController := abortController c;
     isProcessingResponse := isProcessingResponse c |}.

Definition set_canShowThoughtProcess (v : bool) (c : ChatComponent) : ChatComponent :=
  {| interactionModel := interactionModel c; apiUrl := apiUrl c; useStream := useStream c;
     overrides := overrides c; currentQuestion := currentQuestion c;
     questionInput := questionInput c; isDisabled := isDisabled c;
     isChatStarted := isChatStarted c; isResetInput := isResetInput c;
     isAwaitingResponse := isAwaitingResponse c; hasAPIError := hasAPIError c;
     isResponseCopied := isResponseCopied c;
     isShowingThoughtProcess := isShowingThoughtProcess c; canShowThoughtProcess := v;
     isDefaultPromptsEnabled := isDefaultPromptsEnabled c; apiResponse := apiResponse c;
     chatThread := chatThread c; threadGeneration := threadGeneration c;
     chatThoughts := chatThoughts c; chatDataPoints := chatDataPoints c;
     abortController := abortController c;
     isProcessingResponse := isProcessingResponse c |}.

Definition set_isDefaultPromptsEnabled (v : bool) (c : ChatComponent) : ChatComponent :=
  {| interactionModel := interactionModel c; apiUrl := apiUrl c; useStream := useStream c;
     overrides := overrides c; currentQuestion := currentQuestion c;
     questionInput := questionInput c; isDisabled := isDisabled c;
     isChatStarted := isChatStarted c; isResetInput := isResetInput c;
     isAwaitingResponse := isAwaitingResponse c; hasAPIError := hasAPIError c;
     isResponseCopied := isResponseCopied c;
     isShowingThoughtProcess := isShowingThoughtProcess c;
     canShowThoughtProcess := canShowThoughtProcess c; isDefaultPromptsEnabled := v;
     apiResponse := apiResponse c; chatThread := chatThread c;
     threadGeneration := threadGeneration c; chatThoughts := chatThoughts c;
     chatDataPoints := chatDataPoints c; abortController := abortController c;
     isProcessingResponse := isProcessingResponse c |}.

Definition set_apiResponse (v : ApiResponse) (c : ChatComponent) : ChatComponent :=
  {| interactionModel := interactionModel c; apiUrl := apiUrl c; useStream := useStream c;
     overrides := overrides c; currentQuestion := currentQuestion c;
     questionInput := questionInput c; isDisabled := isDisabled c;
     isChatStarted := isChatStarted c; isResetInput := isResetInput c;
     isAwaitingResponse := isAwaitingResponse c; hasAPIError := hasAPIError c;
     isResponseCopied := isResponseCopied c;
     isShowingThoughtProcess := isShowingThoughtProcess c;
     canShowThoughtProcess := canShowThoughtProcess c;
     isDefaultPromptsEnabled := isDefaultPromptsEnabled c; apiResponse := v;
     chatThread := chatThread c; threadGeneration := threadGeneration c;
     chatThoughts := chatThoughts c; chatDataPoints := chatDataPoints c;
     abortController := abortController c;
     isProcessingResponse := isProcessingResponse c |}.

Definition set_chatThread (v : list ChatThreadEntry) (c : ChatComponent) : ChatComponent :=
  {| interactionModel := interactionModel c; apiUrl := apiUrl c; useStream := useStream c;
     overrides := overrides c; currentQuestion := currentQuestion c;
     questionInput := questionInput c; isDisabled := isDisabled c;
     isChatStarted := isChatStarted c; isResetInput := isResetInput c;
     isAwaitingResponse := isAwaitingResponse c; hasAPIError := hasAPIError c;
     isResponseCopied := isResponseCopied c;
     isShowingThoughtProcess := isShowingThoughtProcess c;
     canShowThoughtProcess := canShowThoughtProcess c;
     isDefaultPromptsEnabled := isDefaultPromptsEnabled c; apiResponse := apiResponse c;
     chatThread := v; threadGeneration := threadGeneration c;
     chatThoughts := chatThoughts c; chatDataPoints := chatDataPoints c;
     abortController := abortController c;
     isProcessingResponse := isProcessingResponse c |}.

Definition set_threadGeneration (v : nat) (c : ChatComponent) : ChatComponent :=
  {| interactionModel := interactionModel c; apiUrl := apiUrl c; useStream := useStream c;
     overrides := overrides c; currentQuestion := currentQuestion c;
     questionInput := questionInput c; isDisabled := isDisabled c;
     isChatStarted := isChatStarted c; isResetInput := isResetInput c;
     isAwaitingResponse := isAwaitingResponse c; hasAPIError := hasAPIError c;
     isResponseCopied := isResponseCopied c;
     isShowingThoughtProcess := isShowingThoughtProcess c;
     canShowThoughtProcess := canShowThoughtProcess c;
     isDefaultPromptsEnabled := isDefaultPromptsEnabled c; apiResponse := apiResponse c;
     chatThread := chatThread c; threadGeneration := v; chatThoughts := chatThoughts c;
     chatDataPoints := chatDataPoints c; abortController := abortController c;
     isProcessingResponse := isProcessingResponse c |}.

Definition set_chatThoughts (v : option string) (c : ChatComponent) : ChatComponent :=
  {| interactionModel := interactionModel c; apiUrl := apiUrl c; useStream := useStream c;
     overrides := overrides c; currentQuestion := currentQuestion c;
     questionInput := questionInput c; isDisabled := isDisabled c;
     isChatStarted := isChatStarted c; isResetInput := isResetInput c;
     isAwaitingResponse := isAwaitingResponse c; hasAPIError := hasAPIError c;
     isResponseCopied := isResponseCopied c;
     isShowingThoughtProcess := isShowingThoughtProcess c;
     canShowThoughtProcess := canShowThoughtProcess c;
     isDefaultPromptsEnabled := isDefaultPromptsEnabled c; apiResponse := apiResponse c;
     chatThread := chatThread c; threadGeneration := threadGeneration c; chatThoughts := v;
     chatDataPoints := chatDataPoints c; abortController := abortController c;
     isProcessingResponse := isProcessingResponse c |}.

Definition set_chatDataPoints (v : list string) (c : ChatComponent) : ChatComponent :=
  {| interactionModel := interactionModel c; apiUrl := apiUrl c; useStream := useStream c;
     overrides := overrides c; currentQuestion := currentQuestion c;
     questionInput := questionInput c; isDisabled := isDisabled c;
     isChatStarted := isChatStarted c; isResetInput := isResetInput c;
     isAwaitingResponse := isAwaitingResponse c; hasAPIError := hasAPIError c;
     isResponseCopied := isResponseCopied c;
     isShowingThoughtProcess := isShowingThoughtProcess c;
     canShowThoughtProcess := canShowThoughtProcess c;
     isDefaultPromptsEnabled := isDefaultPromptsEnabled c; apiResponse := apiResponse c;
     chatThread := chatThread c; threadGeneration := threadGeneration c;
     chatThoughts := chatThoughts c; chatDataPoints := v;
     abortController := abortController c;
     isProcessingResponse := isProcessingResponse c |}.

Definition set_abortController (v : nat) (c : ChatComponent) : ChatComponent :=
  {| interactionModel := interactionModel c; apiUrl := apiUrl c; useStream := useStream c;
     overrides := overrides c; currentQuestion := currentQuestion c;
     questionInput := questionInput c; isDisabled := isDisabled c;
     isChatStarted := isChatStarted c; isResetInput := isResetInput c;
     isAwaitingResponse := isAwaitingResponse c; hasAPIError := hasAPIError c;
     isResponseCopied := isResponseCopied c;
     isShowingThoughtProcess := isShowingThoughtProcess c;
     canShowThoughtProcess := canShowThoughtProcess c;
     isDefaultPromptsEnabled := isDefaultPromptsEnabled c; apiResponse := apiResponse c;
     chatThread := chatThread c; threadGeneration := threadGeneration c;
     chatThoughts := chatThoughts c; chatDataPoints := chatDataPoints c;
     abortController := v; isProcessingResponse := isProcessingResponse c |}.

Definition set_isProcessingResponse (v : bool) (c : ChatComponent) : ChatComponent :=
  {| interactionModel := interactionModel c; apiUrl := apiUrl c; useStream := useStream c;
     overrides := overrides c; currentQuestion := currentQuestion c;
     questionInput := questionInput c; isDisabled := isDisabled c;
     isChatStarted := isChatStarted c; isResetInput := isResetInput c;
     isAwaitingResponse := isAwaitingResponse c; hasAPIError := hasAPIError c;
     isResponseCopied := isResponseCopied c;
     isShowingThoughtProcess := isShowingThoughtProcess c;
     canShowThoughtProcess := canShowThoughtProcess c;
     isDefaultPromptsEnabled := isDefaultPromptsEnabled c; apiResponse := apiResponse c;
     chatThread := chatThread c; threadGeneration := threadGeneration c;
     chatThoughts := chatThoughts c; chatDataPoints := chatDataPoints c;
     abortController := abortController c; isProcessingResponse := v |}.

(** ** The world around the component *)

(** One call of [getAPIResponse]: the request options after the two
    spreads, and the http options that the handler overrides. *)
Record TransportCall := {
  request_overrides : gmap string string;
  request_question : string;
  request_type : string;
  http_url : string;
  http_stream : bool }.

(** An array that [chatThread] held at some moment, named by its
    generation and its length.  Its last entry, at [pred arrayLength], is the
    object at that position of every later array of the same generation. *)
Record ThreadArray := { generation : nat; arrayLength : nat }.

(** An activation of [handleUserChatSubmit] parked at one of its [await]s:
    at [getAPIResponse] (with its locals [type] and [question]), or inside
    [processApiResponse] at [parseStreamedMessages], which was handed the
    [signal] of the controller current at that moment, the body of the
    response and the array that [chatThread] held ([handed]). *)
Inductive Suspended :=
| AwaitTransport (type question : string)
| AwaitStream (signal : nat) (response : ApiResponse) (handed : ThreadArray).

(** What the stream parser puts into the entry that it fills. *)
Record ChunkWrite := {
  written_text : list ChatMessageText;
  written_followupQuestions : option (list string);
  written_citations : option (list Citation.t) }.

Definition written (wr : ChunkWrite) (t : ChatThreadEntry) : ChatThreadEntry :=
  {| text := written_text wr; followupQuestions := written_followupQuestions wr;
     citations := written_citations wr;
     timestamp := timestamp t; isUserMessage := isUserMessage t; error := error t |}.

(** Modelled from the spec: the writes of [parseStreamedMessages]
    (core/parser, not part of the sources at hand).  The stream accumulator
    mutates its target turn in place, the freshly appended empty assistant
    turn, which is the last entry of the array that it was handed; of a turn,
    [text], [citations] and [followupQuestions] may be mutated while it
    is filled, [timestamp] and [isUserMessage] never.  The write shows in the
    component's thread when that entry object is still in it: when the
    thread has not been emptied since. *)
Definition parserWrites (handed : ThreadArray) (wr : ChunkWrite)
    (c : ChatComponent) : ChatComponent :=
  if decide (generation handed = threadGeneration c) then
    c |> set_chatThread (alter (written wr) (pred (arrayLength handed)) (chatThread c))
  else c.

(** [controllers] is the heap of [AbortController] objects allocated so far
    (the [aborted] flag of each signal, by address), [transport] the log of
    transport calls, [suspended] the parked activations. *)
Record World := {
  self : ChatComponent;
  controllers : list bool;
  transport : list TransportCall;
  suspended : list Suspended }.

Definition on_self (f : ChatComponent → ChatComponent) (w : World) : World :=
  {| self := f (self w); controllers := controllers w;
     transport := transport w; suspended := suspended w |}.

(** How a segment of the [try] block ends: normally, maybe parked at a new
    [await], or by a throw that the [catch] clause receives. *)
Inductive Completion :=
| Normal (c : ChatComponent) (k : option Suspended)
| Abrupt (e : Thrown) (c : ChatComponent).

(** What [renderChatOrCancelButton] returns. *)
Inductive Button :=
| SubmitChatButton (disabled : bool)
| CancelChatButton.

(** ** Collaborators and configuration *)

(** [sanitize] is [DOMPurify.sanitize]; [processText] is the text
    annotation extractor of utils, a pure function of the message (it is
    called with three empty arrays and its result is read from the returned
    [arrays]). *)
Class Collaborators := {
  sanitize : string → string;
  processText : string → ProcessTextReturn }.

(** The entries of [globalConfig], [chatHttpOptions] and [requestOptions]
    that the controller reads. *)
Class GlobalConfig := {
  INVALID_REQUEST_ERROR : string;
  API_ERROR_MESSAGE : string;
  IS_DEFAULT_PROMPTS_ENABLED : bool;
  chatHttpOptions_url : string;
  chatHttpOptions_stream : bool;
  requestOptions_overrides : gmap string string }.

(** ** JavaScript idioms *)

(** [[...new Set(xs)]]: a [Set] keeps the first insertion of each value and
    compares objects by identity. *)
Fixpoint setSpreadFrom (seen : list nat) (xs : list Citation.t) : list Citation.t :=
  match xs with
  | [] => []
  | x :: rest =>
      if decide (Citation.oid x ∈ seen) then setSpreadFrom seen rest
      else x :: setSpreadFrom (Citation.oid x :: seen) rest
  end.

Definition setSpread (xs : list Citation.t) : list Citation.t := setSpreadFrom [] xs.

(** ** The citations of the text annotation extractor *)

(** Modelled from the spec: the distinct citation texts in the order in
    which the extractor ([processText] of utils, not part of the sources at
    hand) encounters them, each at its first occurrence among the markers. *)
Fixpoint firstSeenFrom (seen : list string) (markers : list string) : list string :=
  match markers with
  | [] => []
  | m :: rest =>
      if decide (m ∈ seen) then firstSeenFrom seen rest
      else m :: firstSeenFrom (m :: seen) rest
  end.

Definition firstSeen (markers : list string) : list string := firstSeenFrom [] markers.

(** Modelled from the spec: the citation numbering of the text annotation
    extractor ([processText] of utils, not part of the sources at hand).
    Markers are extracted in the order encountered, and a citation marker is
    assigned the ordinal [ref] equal to the position of its text among the
    distinct citation texts encountered so far, the same across repeats: the
    texts a.md, b.md, a.md in marker order give the citations
    [{ref: 1, text: a.md}] and [{ref: 2, text: b.md}], the repeat
    merged.  [numbered markers] is that list of refs and texts. *)
Definition numbered (markers : list string) : list (nat * string) :=
  imap (λ i m, (S i, m)) (firstSeen markers).

(** Modelled from the spec: what the text annotation extractor returns as
    the citations of a text whose citation markers are [markers], in marker
    order: one citation object for each entry of the numbering. *)
Definition extractsCitations (markers : list string) (cits : list Citation.t) : Prop :=
  (λ c, (Citation.ref c, Citation.text c)) <$> cits = numbered markers
  ∧ NoDup (Citation.oid <$> cits).

(** Modelled from the spec: an extractor that returns these citations,
    allocating one object for each in order. *)
Definition numberCitations (markers : list string) : list Citation.t :=
  imap (λ i m, {| Citation.oid := i; Citation.ref := S i; Citation.text := m |})
       (firstSeen markers).

(** The value sanitization of an [<input type="text">]: an assignment to
    [value] (and an edit by the user) drops every line feed and carriage
    return of the string. *)
Fixpoint stripNewlines (s : string) : string :=
  match s with
  | EmptyString => EmptyString
  | String a rest =>
      if bool_decide (a ∈ ["010"; "013"]%char) then stripNewlines rest
      else String a (stripNewlines rest)
  end.

(** White space as [String.prototype.trim] sees it, on ASCII. *)
Definition isWhiteSpace (a : ascii) : bool :=
  bool_decide (a ∈ [" "; "009"; "010"; "011"; "012"; "013"]%char).

Fixpoint isBlank (s : string) : bool :=
  match s with
  | EmptyString => true
  | String a rest => isWhiteSpace a && isBlank rest
  end.

Section Controller.
Context `{Collaborators} `{GlobalConfig}.

(** ** The component *)

(** The field initialisers of the class, for given host attributes. *)
Definition newChatComponent (model : string) (url : string) (stream : bool)
    (ovr : gmap string string) : ChatComponent :=
  {| interactionModel := model; apiUrl := url; useStream := stream; overrides := ovr;
     currentQuestion := ""; questionInput := "";
     isDisabled := false; isChatStarted := false; isResetInput := false;
     isAwaitingResponse := false; hasAPIError := false; isResponseCopied := false;
     isShowingThoughtProcess := false; canShowThoughtProcess := false;
     isDefaultPromptsEnabled := IS_DEFAULT_PROMPTS_ENABLED && negb false;
     apiResponse := EmptyObject; chatThread := []; threadGeneration := 0;
     chatThoughts := Some "";
     chatDataPoints := []; abortController := 0; isProcessingResponse := false |}.

(** A freshly connected element with the given host attributes; the
    controller allocated by the initialiser sits at address 0. *)
Definition connect (model : string) (url : string) (stream : bool)
    (ovr : gmap string string) : World :=
  {| self := newChatComponent model url stream ovr; controllers := [false];
     transport := []; suspended := [] |}.

(** The element as the class declares it: conversational mode, url and
    streaming from [chatHttpOptions], no overrides. *)
Definition connectDefault : World :=
  connect "chat" chatHttpOptions_url chatHttpOptions_stream ∅.

Definition collapseAside (c : ChatComponent) : ChatComponent :=
  c |> set_isShowingThoughtProcess false.

(** The entry appended by the non-chunk branch of
    [updateChatWithMessageOrChunk]. *)
Definition messageEntry (cits : list Citation.t) (steps fups : list string)
    (stamp : string) (isUser : bool) (part : string) : ChatThreadEntry :=
  {| text := [ {| value := part; followingSteps := steps |} ];
     followupQuestions := Some fups;
     citations := Some (setSpread cits);
     timestamp := stamp; isUserMessage := isUser; error := None |}.

(** The empty entry that the chunk branch prepares for the stream. *)
Definition chunkEntry (stamp : string) (isUser : bool) : ChatThreadEntry :=
  {| text := [ {| value := ""; followingSteps := [] |} ];
     followupQuestions := Some []; citations := Some [];
     timestamp := stamp; isUserMessage := isUser; error := None |}.

(** [updateChatWithMessageOrChunk], with the variables it closes over
    ([citations], [followingSteps], [followupQuestions], [timestamp],
    [isUserMessage]) as arguments.  The chunk branch runs up to the [await]
    of [parseStreamedMessages] and parks there. *)
Definition updateChatWithMessageOrChunk (cits : list Citation.t) (steps fups : list string)
    (stamp : string) (isUser : bool) (part : string) (isChunk : bool)
    (c : ChatComponent) : ChatComponent * option Suspended :=
  if isChunk then
    let c1 := c |> set_chatThread (chatThread c ++ [chunkEntry stamp isUser])
                |> set_isProcessingResponse true in
    (c1, Some (AwaitStream (abortController c1) (apiResponse c1)
                 {| generation := threadGeneration c1;
                    arrayLength := length (chatThread c1) |}))
  else
    (c |> set_chatThread (chatThread c ++ [messageEntry cits steps fups stamp isUser part]),
     None).

(** The [onCancel] callback handed to the stream parser. *)
Definition onCancel (c : ChatComponent) : ChatComponent :=
  c |> set_isProcessingResponse false.

(** The rest of the chunk branch, once [parseStreamedMessages] resolved. *)
Definition streamResolved (result : StreamResult) (c : ChatComponent) : ChatComponent :=
  c |> set_chatThoughts (result_thoughts result)
    |> set_chatDataPoints (result_data_points result)
    |> set_canShowThoughtProcess true
    |> set_isProcessingResponse false.

(** [processApiResponse]; [stamp] is what [getTimestamp()] returned. *)
Definition processApiResponse (msg : string) (isUser : bool) (stamp : string)
    (c : ChatComponent) : ChatComponent * option Suspended :=
  if isUser then updateChatWithMessageOrChunk [] [] [] stamp isUser msg false c
  else if useStream c then updateChatWithMessageOrChunk [] [] [] stamp isUser msg true c
  else
    let processedText := processText msg in
    updateChatWithMessageOrChunk
      ([] ++ arrays0 processedText) ([] ++ arrays1 processedText)
      ([] ++ arrays2 processedText) stamp isUser (replacedText processedText) false c.

(** [value || ''] for a possibly undefined string. *)
Definition orEmpty (v : option string) : string := default "" v.

(** [this.questionInput.value = v]: the element keeps the sanitized value. *)
Definition set_questionInput_value (v : string) (c : ChatComponent) : ChatComponent :=
  c |> set_questionInput (stripNewlines v).

Definition setQuestionInputValue (v : option string) (c : ChatComponent) : ChatComponent :=
  let c1 := c |> set_questionInput_value (sanitize (orEmpty v)) in
  c1 |> set_currentQuestion (questionInput c1).

Definition handleVoiceInput (input : option string) (c : ChatComponent) : ChatComponent :=
  setQuestionInputValue input c.

Definition handleOnTeaserClick (question : option string) (c : ChatComponent) : ChatComponent :=
  setQuestionInputValue question c.

Definition resetInputField (c : ChatComponent) : ChatComponent :=
  c |> set_questionInput_value "" |> set_currentQuestion "" |> set_isResetInput false.

Definition handleOnInputChange (c : ChatComponent) : ChatComponent :=
  c |> set_isResetInput (bool_decide (questionInput c ≠ "")).

Definition handleAPIError (c : ChatComponent) : ChatComponent :=
  c |> set_hasAPIError true |> set_isDisabled false
    |> set_isAwaitingResponse false |> set_isProcessingResponse false.

Definition copyResponseToClipboard (c : ChatComponent) : ChatComponent :=
  c |> set_isResponseCopied true.

Definition handleExpandAside (c : ChatComponent) : ChatComponent :=
  c |> set_isShowingThoughtProcess true.

Definition renderChatOrCancelButton (c : ChatComponent) : Button :=
  if isProcessingResponse c then CancelChatButton else SubmitChatButton (isDisabled c).

(** *** Cancel and reset *)

(** [abort()] sets the flag of the current controller's signal; the
    replacement controller is a new object, at the next free address. *)
Definition handleUserChatCancel (w : World) : World :=
  let c := self w |> set_isProcessingResponse false in
  let heap := <[abortController c := true]> (controllers w) in
  {| self := c |> set_abortController (length heap);
     controllers := heap ++ [false];
     transport := transport w; suspended := suspended w |}.

(** [this.chatThread = []]: a new array, which starts a generation. *)
Definition emptyChatThread (c : ChatComponent) : ChatComponent :=
  c |> set_chatThread [] |> set_threadGeneration (S (threadGeneration c)).

Definition resetCurrentChat (w : World) : World :=
  w |> on_self (λ c, c |> set_isChatStarted false |> emptyChatThread
                       |> set_isDisabled false |> set_isDefaultPromptsEnabled true
                       |> set_isResponseCopied false |> collapseAside)
    |> handleUserChatCancel.

Definition showDefaultPrompts (w : World) : World :=
  if isDefaultPromptsEnabled (self w) then w else resetCurrentChat w.

(** *** Submit *)

(** The [catch] clause of [handleUserChatSubmit]. *)
Definition chatErrorOf (e : Thrown) : ChatError :=
  {| message := if decide (errorCode e = Some 400%Z)
                then INVALID_REQUEST_ERROR else API_ERROR_MESSAGE |}.

Definition errorEntry (chatError : ChatError) (stamp : string) : ChatThreadEntry :=
  {| text := []; followupQuestions := None; citations := None;
     timestamp := stamp; isUserMessage := false; error := Some chatError |}.

Definition catchClause (e : Thrown) (stamp : string) (c : ChatComponent) : ChatComponent :=
  let chatError := chatErrorOf e in
  let c1 :=
    match (if isProcessingResponse c then last (chatThread c) else None) with
    | Some _ =>
        c |> set_chatThread
               (alter (set_error (Some chatError)) (pred (length (chatThread c)))
                      (chatThread c))
    | None => c |> set_chatThread (chatThread c ++ [errorEntry chatError stamp])
    end in
  handleAPIError c1.

(** The arguments of the [getAPIResponse] call. *)
Definition transportCall (question type : string) (c : ChatComponent) : TransportCall :=
  {| request_overrides := overrides c ∪ requestOptions_overrides;
     request_question := question; request_type := type;
     http_url := apiUrl c; http_stream := useStream c |}.

(** [handleUserChatSubmit] up to the [await] of [getAPIResponse].  The
    user-message call of [processApiResponse] is not awaited and never
    parks, so only its effect on the component is kept. *)
Definition handleUserChatSubmit (stamp : string) (w : World) : World :=
  let c0 := collapseAside (self w) in
  let question := sanitize (questionInput c0) in
  if decide (question = "") then w |> on_self collapseAside
  else
    let c1 := c0 |> set_currentQuestion question in
    let type := interactionModel c1 in
    let c2 := c1 |> set_isChatStarted true |> set_isDefaultPromptsEnabled false
                 |> set_isDisabled true |> set_hasAPIError false
                 |> set_isAwaitingResponse true in
    let c3 := if decide (type = "chat")
              then (processApiResponse question true stamp c2).1 else c2 in
    {| self := c3; controllers := controllers w;
       transport := transport w ++ [transportCall question type c3];
       suspended := suspended w ++ [AwaitTransport type question] |}.

(** [response.choices[0].message]: a [TypeError] unless the response is a
    parsed body with at least one choice. *)
Definition firstMessage (r : ApiResponse) : option Bot.Message :=
  match r with
  | Full body => Bot.message <$> head (Bot.choices body)
  | _ => None
  end.

(** The [try] block from the resolution of [getAPIResponse] on. *)
Definition afterTransport (resp : ApiResponse) (stamp : string)
    (c : ChatComponent) : Completion :=
  let c1 := c |> set_apiResponse resp |> set_questionInput_value ""
              |> set_isAwaitingResponse false |> set_isDisabled false
              |> set_isResetInput false in
  if useStream c1 then
    let r := processApiResponse "" false stamp c1 in Normal r.1 r.2
  else
    match firstMessage resp with
    | None => Abrupt TypeError c1
    | Some m =>
        let c2 := c1 |> set_chatThoughts
                          (Some (default "" (Bot.context m ≫= Bot.thoughts)))
                    |> set_chatDataPoints
                          (default [] (Bot.context m ≫= Bot.data_points))
                    |> set_canShowThoughtProcess true in
        let r := processApiResponse (Bot.content m) false stamp c2 in Normal r.1 r.2
    end.

(** ** Events *)

(** What can happen to a connected component: calls of its handlers,
    changes of two host attributes, and the settling of a parked activation
    ([k] is its position in [suspended]).  Handlers are public methods, so
    an event is not restricted to what the rendered controls offer.
    [Typed] is an edit of the input field followed by its [input] event.
    [ChunkRead] is one round of the stream parser: unless its signal is
    aborted it writes into the entry that it fills and calls [onChunkRead],
    which only requests a re-render. *)
Inductive Event :=
| Typed (v : string)
| VoiceInput (input : option string)
| TeaserClick (question : option string)
| ResetInputField
| Submit (stamp : string)
| Cancel
| Reset
| ShowDefaultPrompts
| CopyResponse
| ExpandAside
| CollapseAside
| SetInteractionModel (model : string)
| SetUseStream (stream : bool)
| TransportResolved (k : nat) (resp : ApiResponse) (stamp : string)
| TransportRejected (k : nat) (e : Thrown) (stamp : string)
| ChunkRead (k : nat) (wr : ChunkWrite)
| CancelObserved (k : nat)
| StreamResolved (k : nat) (result : StreamResult)
| StreamRejected (k : nat) (e : Thrown) (stamp : string).

(** The activation at [k] leaves its [await] with completion [r]; a throw
    runs the [catch] clause. *)
Definition settle (k : nat) (r : Completion) (stamp : string) (w : World) : World :=
  match r with
  | Normal c next =>
      {| self := c; controllers := controllers w; transport := transport w;
         suspended := delete k (suspended w) ++ option_list next |}
  | Abrupt e c =>
      {| self := catchClause e stamp c; controllers := controllers w;
         transport := transport w; suspended := delete k (suspended w) |}
  end.

Definition step (ev : Event) (w : World) : World :=
  match ev with
  | Typed v => w |> on_self (λ c, c |> set_questionInput_value v |> handleOnInputChange)
  | VoiceInput input => w |> on_self (handleVoiceInput input)
  | TeaserClick question => w |> on_self (handleOnTeaserClick question)
  | ResetInputField => w |> on_self resetInputField
  | Submit stamp => handleUserChatSubmit stamp w
  | Cancel => handleUserChatCancel w
  | Reset => resetCurrentChat w
  | ShowDefaultPrompts => showDefaultPrompts w
  | CopyResponse => w |> on_self copyResponseToClipboard
  | ExpandAside => w |> on_self handleExpandAside
  | CollapseAside => w |> on_self collapseAside
  | SetInteractionModel model => w |> on_self (set_interactionModel model)
  | SetUseStream stream => w |> on_self (set_useStream stream)
  | TransportResolved k resp stamp =>
      match suspended w !! k with
      | Some (AwaitTransport _ _) => settle k (afterTransport resp stamp (self w)) stamp w
      | _ => w
      end
  | TransportRejected k e stamp =>
      match suspended w !! k with
      | Some (AwaitTransport _ _) => settle k (Abrupt e (self w)) stamp w
      | _ => w
      end
  | ChunkRead k wr =>
      match suspended w !! k with
      | Some (AwaitStream sig _ handed) =>
          if decide (controllers w !! sig = Some true) then w
          else w |> on_self (parserWrites handed wr)
      | _ => w
      end
  | CancelObserved k =>
      match suspended w !! k with
      | Some (AwaitStream _ _ _) => w |> on_self onCancel
      | _ => w
      end
  | StreamResolved k result =>
      match suspended w !! k with
      | Some (AwaitStream _ _ _) => settle k (Normal (streamResolved result (self w)) None) "" w
      | _ => w
      end
  | StreamRejected k e stamp =>
      match suspended w !! k with
      | Some (AwaitStream _ _ _) => settle k (Abrupt e (self w)) stamp w
      | _ => w
      end
  end.

Definition run (evs : list Event) (w : World) : World := foldl (λ w ev, step ev w) w evs.

End Controller.

(** ** Properties stated over the model *)

(** The existing entry on which the [catch] clause records an error, if it
    does not append one: the last entry of the thread, whatever it is, while
    [isProcessingResponse] is set. *)
Definition openTurn (c : ChatComponent) : option nat :=
  if isProcessingResponse c then
    match chatThread c with [] => None | _ => Some (pred (length (chatThread c))) end
  else None.

(** [chatError] is recorded on the turn at [i], which is otherwise as it
    was, and on no other turn: no turn is added and every other turn is left
    alone. *)
Definition errorOnTurn (chatError : ChatError) (i : nat)
    (before after : list ChatThreadEntry) : Prop :=
  length after = length before
  ∧ (∃ t t', before !! i = Some t ∧ after !! i = Some t'
       ∧ error t' = Some chatError
       ∧ text t' = text t
       ∧ followupQuestions t' = followupQuestions t
       ∧ citations t' = citations t
       ∧ timestamp t' = timestamp t
       ∧ isUserMessage t' = isUserMessage t)
  ∧ ∀ j, j ≠ i → after !! j = before !! j.

(** A turn that carries [chatError] and nothing else (no text, no
    citations, no follow-up questions) is appended, and the turns of [before]
    are left alone. *)
Definition errorOnNewTurn (chatError : ChatError) (stamp : string)
    (before after : list ChatThreadEntry) : Prop :=
  ∃ t', after = before ++ [t']
    ∧ error t' = Some chatError
    ∧ text t' = []
    ∧ followupQuestions t' = None
    ∧ citations t' = None
    ∧ timestamp t' = stamp
    ∧ isUserMessage t' = false.



(** The handed arrays are arrays of the past, and the entry that a parser
    fills, when it is still in the thread, is an assistant turn. *)
Definition parsersFillAssistantTurns (w : World) : Prop :=
  ∀ sig r h, AwaitStream sig r h ∈ suspended w →
    (generation h ≤ threadGeneration (self w))%nat
    ∧ (generation h = threadGeneration (self w) →
       ∃ t, chatThread (self w) !! pred (arrayLength h) = Some t
            ∧ isUserMessage t = false).

(** The position of the thread that the event writes answer text to: a
    round of a parser whose signal is not aborted and whose entry is still in
    the thread. *)
Definition parserTarget (ev : Event) (w : World) : option nat :=
  match ev with
  | ChunkRead k _ =>
      match suspended w !! k with
      | Some (AwaitStream sig _ h) =>
          if decide (controllers w !! sig = Some true) then None
          else if decide (generation h = threadGeneration (self w))
               then Some (pred (arrayLength h)) else None
      | _ => None
      end
  | _ => None
  end.

(** The signals of the streams that are still being read. *)
Definition streamSignals (parked : list Suspended) : list nat :=
  omap (λ s, match s with AwaitStream sig _ _ => Some sig | _ => None end) parked.

(** The controller heap is consistent: the current controller is allocated
    and not aborted, and a stream whose signal is not the current one has
    been aborted. *)
Definition heapConsistent (w : World) : Prop :=
  controllers w !! abortController (self w) = Some false
  ∧ ∀ sig, sig ∈ streamSignals (suspended w) →
      sig = abortController (self w) ∨ controllers w !! sig = Some true.

(** A user turn echoes sanitizer output and nothing else. *)
Definition userTurnSanitized `{Collaborators} (t : ChatThreadEntry) : Prop :=
  isUserMessage t = true →
  ∃ raw, text t = [ {| value := sanitize raw; followingSteps := [] |} ].

(** Every question handed to the transport and every user turn of the
    thread is sanitizer output. *)
Definition onlySanitizedText `{Collaborators} (w : World) : Prop :=
  (∀ call, call ∈ transport w → ∃ raw, request_question call = sanitize raw)
  ∧ Forall userTurnSanitized (chatThread (self w)).

(** An exchange is in flight when an activation of the submit handler is
    parked at one of its awaits. *)
Definition inFlight (w : World) : Prop := suspended w ≠ [].

(** The event by which the activation [p] parked at [k] fails with [e]. *)
Definition rejects (k : nat) (e : Thrown) (stamp : string) (p : Suspended) : Event :=
  match p with
  | AwaitTransport _ _ => TransportRejected k e stamp
  | AwaitStream _ _ _ => StreamRejected k e stamp
  end.

(** ** Stand-ins for closed examples *)

Module Demo.

(** A sanitizer that drops the angle brackets of markup. *)
Fixpoint stripAngles (s : string) : string :=
  match s with
  | EmptyString => EmptyString
  | String a rest =>
      if bool_decide (a ∈ ["<"; ">"]%char) then stripAngles rest
      else String a (stripAngles rest)
  end.

(** An extractor that finds no annotation. *)
Definition plainText (msg : string) : ProcessTextReturn :=
  {| replacedText := msg; arrays0 := []; arrays1 := []; arrays2 := [] |}.

#[export] Instance collaborators : Collaborators :=
  {| sanitize := stripAngles; processText := plainText |}.

#[export] Instance config : GlobalConfig :=
  {| INVALID_REQUEST_ERROR := "invalid request";
     API_ERROR_MESSAGE := "api error";
     IS_DEFAULT_PROMPTS_ENABLED := true;
     chatHttpOptions_url := "http://localhost:3000";
     chatHttpOptions_stream := true;
     requestOptions_overrides := ∅ |}.

Definition chatWorld (stream : bool) : World :=
  connect "chat" chatHttpOptions_url stream ∅.

Definition askWorld (stream : bool) : World :=
  connect "ask" chatHttpOptions_url stream ∅.

(** A question has been typed and submitted; the transport is pending. *)
Definition submitting (stream : bool) : World :=
  run [Typed "hi"; Submit "10:00"] (chatWorld stream).

(** The streamed response has started to arrive. *)
Definition streaming : World :=
  run [TransportResolved 0 (Streamed 7) "10:01"] (submitting true).

Definition okResponse : ApiResponse :=
  Full {| Bot.choices :=
            [ {| Bot.index := 0;
                 Bot.message := {| Bot.content := "Refunds within 30 days";
                                   Bot.role := "assistant"; Bot.context := None |} |} ] |}.

(** The response has failed to arrive with status 400. *)
Definition failed : World :=
  run [TransportRejected 0 (ThrownError (Some 400%Z)) "10:01"] (submitting false).

(** White space has been typed into the input field. *)
Definition blankTyped : World := run [Typed "   "] (chatWorld false).

(** A question has been typed in single-turn mode. *)
Definition askTyped : World := run [Typed "refund policy?"] (askWorld false).







Definition a1 : Citation.t := {| Citation.oid := 1; Citation.ref := 1; Citation.text := "a.md" |}.
Definition b1 : Citation.t := {| Citation.oid := 3; Citation.ref := 2; Citation.text := "b.md" |}.

End Demo.

(** ** The template, the clipboard and the request *)

(** The parts of [render] that are switched by the flags: the chat list
    ([isChatStarted]), the loading indicator
    ([isAwaitingResponse && !hasAPIError]), the teaser list
    ([isDefaultPromptsEnabled]), the [disabled] attribute of the input, the
    voice button ([isResetInput ? '' : ...]), the submit or cancel button,
    the [hidden] property of the reset-input button, the button that brings
    the default prompts back and the aside. *)
Record Template := {
  chatListShown : bool;
  loadingIndicatorShown : bool;
  teaserListShown : bool;
  inputDisabled : bool;
  voiceButtonShown : bool;
  chatOrCancelButton : Button;
  resetButtonHidden : bool;
  defaultsButtonShown : bool;
  asideShown : bool }.

Definition render (c : ChatComponent) : Template :=
  {| chatListShown := isChatStarted c;
     loadingIndicatorShown := isAwaitingResponse c && negb (hasAPIError c);
     teaserListShown := isDefaultPromptsEnabled c;
     inputDisabled := isDisabled c;
     voiceButtonShown := if isResetInput c then false else true;
     chatOrCancelButton := renderChatOrCancelButton c;
     resetButtonHidden := negb (isResetInput c);
     defaultsButtonShown := if isDefaultPromptsEnabled c then false else true;
     asideShown := isShowingThoughtProcess c |}.

(** What [copyResponseToClipboard] hands to the clipboard:
    [this.chatThread.at(-1)?.text.at(-1)?.value], [None] for [undefined]. *)
Definition responseToCopy (c : ChatComponent) : option string :=
  value <$> (last (chatThread c) ≫= λ t, last (text t)).

(** ** Relations between states *)

(** The six properties of a turn. *)
Definition turnHas (t : ChatThreadEntry) (segments : list ChatMessageText)
    (questions : option (list string)) (cits : option (list Citation.t))
    (stamp : string) (isUser : bool) (err : option ChatError) : Prop :=
  text t = segments
  ∧ followupQuestions t = questions
  ∧ citations t = cits
  ∧ timestamp t = stamp
  ∧ isUserMessage t = isUser
  ∧ error t = err.

(** The turns that a submission of the question [q] adds before it parks:
    the user turn in chat mode, nothing in any other mode. *)
Definition userTurnEchoed (model q stamp : string) (user : list ChatThreadEntry) : Prop :=
  (model = "chat" →
   ∃ t, user = [t]
        ∧ turnHas t [ {| value := q; followingSteps := [] |} ]
            (Some []) (Some []) stamp true None)
  ∧ (model ≠ "chat" → user = []).

(** What the parser has left in the entry that it fills after the writes
    [writes], the latest last: the latest write, or the empty content that
    the entry was prepared with. *)
Definition filledBy (writes : list ChunkWrite) (t : ChatThreadEntry) : Prop :=
  match last writes with
  | Some wr =>
      text t = written_text wr
      ∧ followupQuestions t = written_followupQuestions wr
      ∧ citations t = written_citations wr
  | None =>
      text t = [ {| value := ""; followingSteps := [] |} ]
      ∧ followupQuestions t = Some []
      ∧ citations t = Some []
  end.

(** [t'] is the turn [t], possibly with an error recorded on it. *)
Definition sameTurn (t t' : ChatThreadEntry) : Prop :=
  text t' = text t
  ∧ followupQuestions t' = followupQuestions t
  ∧ citations t' = citations t
  ∧ timestamp t' = timestamp t
  ∧ isUserMessage t' = isUserMessage t
  ∧ (error t' = error t ∨ is_Some (error t')).

(** [t'] is the turn [t] after a parser wrote into it: the text, the
    citations and the follow-up questions are the parser's. *)
Definition filledTurn (t t' : ChatThreadEntry) : Prop :=
  timestamp t' = timestamp t
  ∧ isUserMessage t' = isUserMessage t
  ∧ error t' = error t.

(** Every turn is still at its position and at most one turn was added; a
    turn has kept its content, unless it is the one at [target], which a
    parser has filled. *)
Definition turnsKept (target : option nat)
    (before after : list ChatThreadEntry) : Prop :=
  (length before ≤ length after ≤ S (length before))%nat
  ∧ ∀ i t, before !! i = Some t →
      ∃ t', after !! i = Some t'
            ∧ if decide (target = Some i) then filledTurn t t' else sameTurn t t'.

Definition threadEvolves (target : option nat)
    (before after : list ChatThreadEntry) : Prop :=
  after = [] ∨ turnsKept target before after.

Definition transportPending (w : World) : Prop :=
  ∃ type q, AwaitTransport type q ∈ suspended w.

Definition streamBeingRead (w : World) : Prop :=
  ∃ sig r handed, AwaitStream sig r handed ∈ suspended w.

(** The flags that block or re-route the controls are set only while
    something is parked that will clear them. *)
Definition neverStuck (w : World) : Prop :=
  (isAwaitingResponse (self w) = true → transportPending w)
  ∧ (isDisabled (self w) = true → transportPending w)
  ∧ (isProcessingResponse (self w) = true → streamBeingRead w).

(** [String.prototype.endsWith]. *)
Fixpoint endsWith (s suffix : string) : bool :=
  if decide (s = suffix) then true
  else match s with
       | EmptyString => false
       | String _ rest => endsWith rest suffix
       end.

(** ** The aside *)

(** The chat component together with the two fields that only the aside
    uses. *)
Module Aside.

Inductive Tab := TabThoughtProcess | TabSupportContext | TabCitations.

Record t := {
  world : World;
  selectedCitation : option Citation.t;
  selectedAsideTab : Tab }.

Definition on_world (f : World → World) (a : t) : t :=
  {| world := f (world a); selectedCitation := selectedCitation a;
     selectedAsideTab := selectedAsideTab a |}.

Definition set_selectedAsideTab (tab : Tab) (a : t) : t :=
  {| world := world a; selectedCitation := selectedCitation a; selectedAsideTab := tab |}.

Definition set_selectedCitation (c : option Citation.t) (a : t) : t :=
  {| world := world a; selectedCitation := c; selectedAsideTab := selectedAsideTab a |}.

(** [handleExpandAside] in full: the flag and the tab. *)
Definition handleExpandAside (a : t) : t :=
  a |> on_world (on_self handleExpandAside) |> set_selectedAsideTab TabThoughtProcess.

(** [handleCitationClick]; the boolean tells whether [preventDefault] was
    called, that is whether the link was kept from opening. *)
Definition handleCitationClick (citation : Citation.t) (a : t) : t * bool :=
  if endsWith (Citation.text citation) ".md" then
    let a1 := a |> set_selectedCitation (Some citation) in
    if isShowingThoughtProcess (self (world a1)) then (a1, true)
    else (a1 |> handleExpandAside |> set_selectedAsideTab TabCitations, true)
  else (a, false).

(** The document that the citations tab previews:
    [${this.apiUrl}/content/${this.selectedCitation.text}]. *)
Definition previewUrl (a : t) : option string :=
  (λ c, apiUrl (self (world a)) +:+ "/content/" +:+ Citation.text c) <$> selectedCitation a.

Inductive Action :=
| CitationClick (citation : Citation.t)
| Core (ev : Event).

Section WithCollaborators.
Context `{Collaborators} `{GlobalConfig}.

Definition connect (model url : string) (stream : bool) (ovr : gmap string string) : t :=
  {| world := connect model url stream ovr; selectedCitation := None;
     selectedAsideTab := TabThoughtProcess |}.

Definition step (act : Action) (a : t) : t :=
  match act with
  | CitationClick citation => (handleCitationClick citation a).1
  | Core ExpandAside => handleExpandAside a
  | Core ev => a |> on_world (step ev)
  end.

Definition run (acts : list Action) (a : t) : t := foldl (λ a act, step act a) a acts.

End WithCollaborators.

End Aside.

(** ** The voice input button *)

Module VoiceInputButton.

(** The calls that the button makes on the recognition object. *)
Inductive Call := Start | Stop.

(** The recognition object of the browser, as far as the button goes: the
    two properties that it sets and the calls that it has made on the
    object, the latest last.  What the browser does on a call is not
    modelled; no statement of the button follows a call. *)
Record SpeechRecognition := { continuous : bool; lang : string; calls : list Call }.

(** [new SpeechRecognition()]. *)
Definition newSpeechRecognition : SpeechRecognition :=
  {| continuous := false; lang := ""; calls := [] |}.

Definition call (c : Call) (r : SpeechRecognition) : SpeechRecognition :=
  {| continuous := continuous r; lang := lang r; calls := calls r ++ [c] |}.

Record t := {
  showVoiceInput : bool;
  enableVoiceListening : bool;
  speechRecognition : option SpeechRecognition }.

(** The field initialisers; [supported] tells whether the window has
    [SpeechRecognition] or [webkitSpeechRecognition]. *)
Definition connect (supported : bool) : t :=
  {| showVoiceInput := supported; enableVoiceListening := false;
     speechRecognition := None |}.

Definition set_speechRecognition (r : option SpeechRecognition) (b : t) : t :=
  {| showVoiceInput := showVoiceInput b; enableVoiceListening := enableVoiceListening b;
     speechRecognition := r |}.

Definition set_enableVoiceListening (v : bool) (b : t) : t :=
  {| showVoiceInput := showVoiceInput b; enableVoiceListening := v;
     speechRecognition := speechRecognition b |}.

Definition initializeSpeechRecognition (b : t) : t :=
  if showVoiceInput b then
    b |> set_speechRecognition
           (Some {| continuous := true; lang := "en-US";
                    calls := calls newSpeechRecognition |})
  else b.

Definition handleVoiceInput (b : t) : t :=
  let b1 := match speechRecognition b with
            | None => initializeSpeechRecognition b
            | Some _ => b
            end in
  match speechRecognition b1 with
  | None => b1
  | Some r =>
      let b2 := b1 |> set_enableVoiceListening (negb (enableVoiceListening b1)) in
      if enableVoiceListening b2
      then b2 |> set_speechRecognition (Some (call Start r))
      else b2 |> set_speechRecognition (Some (call Stop r))
  end.

(** The listener for the [error] event of the recognition. *)
Definition onerror (b : t) : t :=
  match speechRecognition b with
  | Some r => b |> set_speechRecognition (Some (call Stop r))
  | None => b
  end.

(** [onresult]: the [input] of the dispatched [on-voice-input] event, the
    transcripts of the first alternative of every result; [None] when a
    result has no alternative ([result[0]] is undefined) and the handler
    throws before it dispatches.  A result is the list of the transcripts of
    its alternatives. *)
Fixpoint onresult (results : list (list string)) : option string :=
  match results with
  | [] => Some ""
  | result :: rest =>
      transcript ← head result;
      input ← onresult rest;
      Some (transcript +:+ input)
  end.

(** [render]: nothing without support, else the button, recording or not. *)
Definition render (b : t) : option bool :=
  if showVoiceInput b then Some (enableVoiceListening b) else None.

(** Clicks on the button and the events of the recognition that it
    listens to. *)
Inductive Event :=
| Click
| RecognitionError
| RecognitionResult (results : list (list string)).

Definition step (ev : Event) (b : t) : t :=
  match ev with
  | Click => handleVoiceInput b
  | RecognitionError => onerror b
  | RecognitionResult _ => b
  end.

Definition run (evs : list Event) (b : t) : t := foldl (λ b ev, step ev b) b evs.

End VoiceInputButton.

(** The recognition object, once created, is configured for continuous
    English dictation; while the button is idle the latest call on it, if
    any, was [stop()]; and [start()] is never called twice in a row. *)
Definition voiceConsistent (b : VoiceInputButton.t) : Prop :=
  match VoiceInputButton.speechRecognition b with
  | Some r =>
      VoiceInputButton.continuous r = true
      ∧ VoiceInputButton.lang r = "en-US"
      ∧ VoiceInputButton.showVoiceInput b = true
      ∧ (VoiceInputButton.enableVoiceListening b = false →
         last (VoiceInputButton.calls r) ≠ Some VoiceInputButton.Start)
      ∧ ∀ before after,
          VoiceInputButton.calls r
          ≠ before ++ [VoiceInputButton.Start; VoiceInputButton.Start] ++ after
  | None => VoiceInputButton.enableVoiceListening b = false
  end.

(** More worlds for closed examples. *)
Module Sample.
Import Demo.

Definition firstChoice : Bot.Message :=
  {| Bot.content := "Refunds within 30 days";
     Bot.role := "assistant";
     Bot.context := Some {| Bot.data_points := Some ["d1"]; Bot.thoughts := None |} |}.

Definition thoughtfulResponse : ApiResponse :=
  Full {| Bot.choices := [ {| Bot.index := 0; Bot.message := firstChoice |} ] |}.

Definition streamResult : StreamResult :=
  {| result_thoughts := Some "searched the handbook"; result_data_points := ["d1"] |}.

(** Two rounds of the parser: the answer so far, then the whole answer. *)
Definition hel : ChunkWrite :=
  {| written_text := [ {| value := "Hel"; followingSteps := [] |} ];
     written_followupQuestions := Some []; written_citations := Some [] |}.

Definition hello : ChunkWrite :=
  {| written_text := [ {| value := "Hello"; followingSteps := [] |} ];
     written_followupQuestions := Some []; written_citations := Some [] |}.

(** A question has been typed, without and with streaming. *)
Definition typed : World := run [Typed "hi"] (chatWorld false).

Definition typedStream : World := run [Typed "hi"] (chatWorld true).

(** A configuration with default overrides, and a host that overrides one
    of them. *)
Definition config : GlobalConfig :=
  {| INVALID_REQUEST_ERROR := "invalid request";
     API_ERROR_MESSAGE := "api error";
     IS_DEFAULT_PROMPTS_ENABLED := true;
     chatHttpOptions_url := "http://localhost:3000";
     chatHttpOptions_stream := false;
     requestOptions_overrides := {[ "top" := "3"; "temperature" := "0.3" ]} |}.

Definition overridden : World :=
  @run collaborators config [Typed "hi"]
    (@connect config "ask" "http://example.org" false {[ "top" := "5" ]}).

Definition asideClosed : Aside.t := Aside.connect "chat" chatHttpOptions_url false ∅.

Definition listening : VoiceInputButton.t :=
  VoiceInputButton.run [VoiceInputButton.Click] (VoiceInputButton.connect true).

End Sample.

Section Properties.
Context `{Collaborators} `{GlobalConfig}.

(** ** The [catch] clause *)

Lemma catchClause_records e stamp c :
  (isProcessingResponse c = true → chatThread c ≠ [] →
   errorOnTurn (chatErrorOf e) (pred (length (chatThread c)))
     (chatThread c) (chatThread (catchClause e stamp c)))
  ∧ (isProcessingResponse c = false ∨ chatThread c = [] →
     errorOnNewTurn (chatErrorOf e) stamp
       (chatThread c) (chatThread (catchClause e stamp c))).
Proof.
  unfold catchClause. split.
  - intros Hp Hne. rewrite Hp.
    destruct (last (chatThread c)) as [t0|] eqn:Hlast.
    2: { by apply last_None in Hlast. }
    cbn [handleAPIError chatThread set_chatThread set_hasAPIError set_isDisabled
         set_isAwaitingResponse set_isProcessingResponse].
    rewrite last_lookup in Hlast. split_and!.
    + apply length_alter.
    + exists t0, (set_error (Some (chatErrorOf e)) t0).
      rewrite list_lookup_alter_eq, Hlast. by split_and!.
    + intros j Hj. by apply list_lookup_alter_ne.
  - intros Hor.
    assert ((if isProcessingResponse c then last (chatThread c) else None) = None) as ->.
    { destruct Hor as [->| ->]; [done|]. by destruct (isProcessingResponse c). }
    eexists. by split_and!.
Qed.

Lemma openTurn_spec c :
  match openTurn c with
  | Some o => isProcessingResponse c = true ∧ chatThread c ≠ []
              ∧ o = pred (length (chatThread c))
  | None => isProcessingResponse c = false ∨ chatThread c = []
  end.
Proof.
  unfold openTurn. destruct (isProcessingResponse c); [|by left].
  destruct (chatThread c); [by right|done].
Qed.

Lemma catchClause_last e stamp c :
  ∃ t, last (chatThread (catchClause e stamp c)) = Some t
       ∧ error t = Some (chatErrorOf e).
Proof.
  destruct (catchClause_records e stamp c) as [Hturn Hnew].
  pose proof (openTurn_spec c) as Hopen. destruct (openTurn c) as [o|].
  - destruct Hopen as (Hp & Hne & _).
    destruct (Hturn Hp Hne) as (Hlen & (t & t' & _ & Ht' & Herr & _) & _).
    exists t'. by rewrite last_lookup, Hlen.
  - destruct (Hnew Hopen) as (t' & -> & Herr & _). exists t'. by rewrite last_snoc.
Qed.

Lemma catchClause_flags e stamp c :
  let c' := catchClause e stamp c in
  hasAPIError c' = true ∧ isDisabled c' = false
  ∧ isAwaitingResponse c' = false ∧ isProcessingResponse c' = false.
Proof. unfold catchClause. by destruct (if isProcessingResponse c then _ else _). Qed.

Lemma catchClause_abortController e stamp c :
  abortController (catchClause e stamp c) = abortController c.
Proof. unfold catchClause. by destruct (if isProcessingResponse c then _ else _). Qed.

(** ** Settling a parked activation *)

Lemma step_rejects w k p e stamp :
  suspended w !! k = Some p →
  step (rejects k e stamp p) w =
    {| self := catchClause e stamp (self w); controllers := controllers w;
       transport := transport w; suspended := delete k (suspended w) |}.
Proof. intros Hk. destruct p; simpl; by rewrite Hk. Qed.

Lemma step_malformed_response w k type q resp stamp :
  suspended w !! k = Some (AwaitTransport type q) →
  useStream (self w) = false →
  firstMessage resp = None →
  ∃ c1, chatThread c1 = chatThread (self w)
    ∧ isProcessingResponse c1 = isProcessingResponse (self w)
    ∧ step (TransportResolved k resp stamp) w =
        {| self := catchClause TypeError stamp c1; controllers := controllers w;
           transport := transport w; suspended := delete k (suspended w) |}.
Proof.
  intros Hk Hs Hm. eexists. split_and!; [| |simpl; rewrite Hk; unfold afterTransport].
  3: { cbn [useStream set_isResetInput set_isDisabled set_isAwaitingResponse
            set_questionInput set_questionInput_value set_apiResponse].
       rewrite Hs, Hm. reflexivity. }
  all: done.
Qed.

(** ** Failures *)

(** C5.  When the transport (or the stream read) of a parked exchange
    fails, the message recorded on the failed turn is the invalid-request
    message if the error carries code 400 and the generic API-error message
    otherwise; afterwards the exchange is no longer parked and the disabled,
    awaiting-response and processing-response flags are cleared, so the
    enabled submit button is rendered again. *)
Theorem transport_failure_message_and_idle w k p e stamp :
  suspended w !! k = Some p →
  let w' := step (rejects k e stamp p) w in
  (∃ t, last (chatThread (self w')) = Some t
        ∧ error t =
            Some {| message := if decide (errorCode e = Some 400%Z)
                               then INVALID_REQUEST_ERROR else API_ERROR_MESSAGE |})
  ∧ (errorCode e = Some 400%Z → message (chatErrorOf e) = INVALID_REQUEST_ERROR)
  ∧ (errorCode e ≠ Some 400%Z → message (chatErrorOf e) = API_ERROR_MESSAGE)
  ∧ isDisabled (self w') = false
  ∧ isAwaitingResponse (self w') = false
  ∧ isProcessingResponse (self w') = false
  ∧ renderChatOrCancelButton (self w') = SubmitChatButton false
  ∧ suspended w' = delete k (suspended w).
Proof.
  intros Hk w'. subst w'. rewrite (step_rejects _ _ _ _ _ Hk). cbn [self suspended].
  destruct (catchClause_flags e stamp (self w)) as (_ & Hd & Ha & Hp).
  split_and!; [|intros He; unfold chatErrorOf; simpl..|done|done|done| |done].
  - apply catchClause_last.
  - by rewrite decide_True.
  - by rewrite decide_False.
  - unfold renderChatOrCancelButton. by rewrite Hp, Hd.
Qed.

(** ** The generation of the thread *)

Lemma catchClause_generation e stamp c :
  threadGeneration (catchClause e stamp c) = threadGeneration c.
Proof. unfold catchClause. by destruct (if isProcessingResponse c then _ else _). Qed.

Lemma processApiResponse_generation msg isUser stamp c :
  threadGeneration (processApiResponse msg isUser stamp c).1 = threadGeneration c.
Proof.
  unfold processApiResponse, updateChatWithMessageOrChunk.
  destruct isUser; [done|]. by destruct (useStream c).
Qed.

Lemma afterTransport_generation resp stamp c :
  match afterTransport resp stamp c with
  | Normal c' _ | Abrupt _ c' => threadGeneration c' = threadGeneration c
  end.
Proof.
  unfold afterTransport, set_questionInput_value.
  cbn [useStream set_isResetInput set_isDisabled set_isAwaitingResponse
       set_questionInput set_apiResponse].
  destruct (useStream c).
  - cbn beta iota zeta. by rewrite processApiResponse_generation.
  - destruct (firstMessage resp); [|done].
    cbn beta iota zeta. by rewrite processApiResponse_generation.
Qed.

Lemma transportResolved_generation k resp stamp w :
  threadGeneration (self (step (TransportResolved k resp stamp) w))
  = threadGeneration (self w).
Proof.
  cbn [step]. destruct (suspended w !! k) as [[]|]; try done.
  pose proof (afterTransport_generation resp stamp (self w)) as Hgen.
  destruct (afterTransport resp stamp (self w)); cbn [settle self]; [done|].
  by rewrite catchClause_generation.
Qed.

Lemma submit_generation stamp w :
  threadGeneration (self (step (Submit stamp) w)) = threadGeneration (self w).
Proof.
  cbn [step]. unfold handleUserChatSubmit. destruct (decide _); [done|].
  cbn [self]. by destruct (decide _).
Qed.

(** ** The controller heap *)

Lemma parserWrites_frame handed wr c :
  ∃ l, parserWrites handed wr c = set_chatThread l c.
Proof.
  unfold parserWrites. destruct (decide _); [by eexists|].
  exists (chatThread c). by destruct c.
Qed.

Lemma parserWrites_abortController handed wr c :
  abortController (parserWrites handed wr c) = abortController c.
Proof. by destruct (parserWrites_frame handed wr c) as [l ->]. Qed.

Lemma streamSignals_spec parked sig :
  sig ∈ streamSignals parked ↔ ∃ r h, AwaitStream sig r h ∈ parked.
Proof.
  unfold streamSignals. rewrite list_elem_of_omap. split.
  - intros ([ | sig' r h] & Hin & Heq); [done|]. injection Heq as ->. eauto.
  - intros (r & h & Hin). eauto.
Qed.

Lemma streamSignals_delete parked k sig :
  sig ∈ streamSignals (delete k parked) → sig ∈ streamSignals parked.
Proof.
  rewrite !streamSignals_spec. intros (r & h & Hr). exists r, h.
  by eapply list_elem_of_delete_inv.
Qed.

Lemma streamSignals_snoc parked p sig :
  sig ∈ streamSignals (parked ++ [p]) ↔
  sig ∈ streamSignals parked ∨ ∃ r h, p = AwaitStream sig r h.
Proof.
  rewrite !streamSignals_spec. split.
  - intros (r & h & [Hin| <-%list_elem_of_singleton]%elem_of_app); eauto.
  - intros [(r & h & Hin)|(r & h & ->)]; exists r, h; apply elem_of_app; [by left|right].
    by apply list_elem_of_singleton.
Qed.

Lemma processApiResponse_frame msg isUser stamp c :
  let r := processApiResponse msg isUser stamp c in
  abortController r.1 = abortController c
  ∧ (r.2 = None ∨ ∃ h, r.2 = Some (AwaitStream (abortController c) (apiResponse c) h)).
Proof.
  unfold processApiResponse, updateChatWithMessageOrChunk.
  destruct isUser; [by auto|]. destruct (useStream c); simpl; eauto.
Qed.

Lemma afterTransport_frame resp stamp c :
  match afterTransport resp stamp c with
  | Normal c' next =>
      abortController c' = abortController c
      ∧ (next = None ∨ ∃ r h, next = Some (AwaitStream (abortController c) r h))
  | Abrupt _ c' => abortController c' = abortController c
  end.
Proof.
  unfold afterTransport, set_questionInput_value.
  cbn [useStream set_isResetInput set_isDisabled set_isAwaitingResponse
       set_questionInput set_apiResponse].
  destruct (useStream c).
  - match goal with |- context [processApiResponse ?m ?u ?s ?d] =>
      destruct (processApiResponse_frame m u s d) as [-> [->|[h ->]]] end; eauto.
  - destruct (firstMessage resp); [|done].
    match goal with |- context [processApiResponse ?m ?u ?s ?d] =>
      destruct (processApiResponse_frame m u s d) as [-> [->|[h ->]]] end; eauto.
Qed.

(** A step that leaves the heap and the current controller alone, and
    parks new streams on the current signal only, keeps the heap
    consistent. *)
Lemma heapConsistent_frame w w' :
  controllers w' = controllers w →
  abortController (self w') = abortController (self w) →
  (∀ sig, sig ∈ streamSignals (suspended w') →
     sig ∈ streamSignals (suspended w) ∨ sig = abortController (self w)) →
  heapConsistent w → heapConsistent w'.
Proof.
  intros Hc Ha Hs [Hcur Hold]. split; rewrite Hc, Ha; [done|].
  intros sig [Hin| ->]%Hs; auto.
Qed.

Lemma heapConsistent_settle k r stamp w :
  match r with
  | Normal c next =>
      abortController c = abortController (self w)
      ∧ (next = None ∨ ∃ b h, next = Some (AwaitStream (abortController (self w)) b h))
  | Abrupt _ c => abortController c = abortController (self w)
  end →
  heapConsistent w → heapConsistent (settle k r stamp w).
Proof.
  intros Hr. destruct r as [c next|e c]; simpl in *.
  - destruct Hr as [Hac Hnext]. apply heapConsistent_frame; simpl; [done|done|].
    destruct Hnext as [->|(b & h & ->)]; simpl.
    + rewrite app_nil_r. eauto using streamSignals_delete.
    + intros sig [Hin|(b' & h' & [= <-])]%streamSignals_snoc;
        eauto using streamSignals_delete.
  - apply heapConsistent_frame; cbn [self controllers suspended];
      [done| |eauto using streamSignals_delete].
    by rewrite catchClause_abortController.
Qed.

Lemma handleUserChatCancel_heap w :
  heapConsistent w →
  heapConsistent (handleUserChatCancel w)
  ∧ ∀ sig, sig ∈ streamSignals (suspended w) →
      controllers (handleUserChatCancel w) !! sig = Some true.
Proof.
  intros [Hcur Hold]. unfold handleUserChatCancel, heapConsistent. cbn [self controllers suspended
    abortController set_abortController set_isProcessingResponse].
  pose proof (lookup_lt_Some _ _ _ Hcur) as Hlt.
  assert (∀ sig, sig ∈ streamSignals (suspended w) →
    (<[abortController (self w):=true]> (controllers w) ++ [false]) !! sig = Some true)
    as Haborted.
  { intros sig [->|Hsig]%Hold.
    - rewrite lookup_app_l by (by rewrite length_insert).
      by apply list_lookup_insert_eq.
    - pose proof (lookup_lt_Some _ _ _ Hsig).
      rewrite lookup_app_l by (by rewrite length_insert).
      rewrite list_lookup_insert_ne; [done|]. intros <-. congruence. }
  split; [split|]; auto.
  by rewrite lookup_app_r, Nat.sub_diag.
Qed.

Lemma resetCurrentChat_heap w :
  heapConsistent w →
  heapConsistent (resetCurrentChat w)
  ∧ ∀ sig, sig ∈ streamSignals (suspended w) →
      controllers (resetCurrentChat w) !! sig = Some true.
Proof.
  intros Hw. unfold resetCurrentChat.
  match goal with |- context [handleUserChatCancel ?w1] =>
    apply (handleUserChatCancel_heap w1) end.
  revert Hw. by apply heapConsistent_frame; simpl; auto.
Qed.

Lemma heapConsistent_step ev w : heapConsistent w → heapConsistent (step ev w).
Proof.
  intros Hw. destruct ev; cbn [step]; try done;
    try (revert Hw; by apply heapConsistent_frame; simpl; auto).
  - (* Submit *)
    unfold handleUserChatSubmit.
    destruct (decide _); revert Hw; apply heapConsistent_frame; simpl; auto.
    + by destruct (decide _).
    + intros sig [Hin|(b & h & [=])]%streamSignals_snoc. auto.
  - by apply handleUserChatCancel_heap.
  - by apply resetCurrentChat_heap.
  - unfold showDefaultPrompts. destruct (isDefaultPromptsEnabled _); [done|].
    by apply resetCurrentChat_heap.
  - destruct (suspended w !! k) as [[]|]; try done.
    apply heapConsistent_settle; [|done]. apply afterTransport_frame.
  - destruct (suspended w !! k) as [[]|]; try done.
    by apply heapConsistent_settle.
  - destruct (suspended w !! k) as [[|sig r h]|]; try done.
    destruct (decide _); [done|]. revert Hw.
    apply heapConsistent_frame; simpl; auto using parserWrites_abortController.
  - by destruct (suspended w !! k) as [[]|].
  - destruct (suspended w !! k) as [[]|]; try done.
    apply heapConsistent_settle; [|done]. simpl. auto.
  - destruct (suspended w !! k) as [[]|]; try done.
    by apply heapConsistent_settle.
Qed.

Lemma heapConsistent_connect model url stream ovr :
  heapConsistent (connect model url stream ovr).
Proof. split; [done|]. intros sig Hin. by apply elem_of_nil in Hin. Qed.

Lemma heapConsistent_run evs w : heapConsistent w → heapConsistent (run evs w).
Proof.
  revert w. induction evs as [|ev evs IH]; intros w Hw; [done|].
  apply IH. by apply heapConsistent_step.
Qed.

Lemma heapConsistent_reachable evs model url stream ovr :
  heapConsistent (run evs (connect model url stream ovr)).
Proof. apply heapConsistent_run, heapConsistent_connect. Qed.

Lemma streamStart w k type q resp stamp :
  suspended w !! k = Some (AwaitTransport type q) →
  useStream (self w) = true →
  let w' := step (TransportResolved k resp stamp) w in
  suspended w' = delete k (suspended w)
                 ++ [AwaitStream (abortController (self w)) resp
                       {| generation := threadGeneration (self w);
                          arrayLength := S (length (chatThread (self w))) |}]
  ∧ abortController (self w') = abortController (self w)
  ∧ controllers w' = controllers w
  ∧ chatThread (self w') = chatThread (self w) ++ [chunkEntry stamp false]
  ∧ isProcessingResponse (self w') = true.
Proof.
  intros Hk Hs. cbn [step]. rewrite Hk. unfold afterTransport, set_questionInput_value.
  cbn [useStream set_isResetInput set_isDisabled set_isAwaitingResponse
       set_questionInput set_apiResponse]. rewrite Hs.
  unfold processApiResponse.
  cbn [useStream set_isResetInput set_isDisabled set_isAwaitingResponse
       set_questionInput set_apiResponse]. rewrite Hs.
  simpl. rewrite length_app, Nat.add_1_r. done.
Qed.

(** ** Cancel and reset *)

(** C7.  In every state the component can reach, cancelling clears the
    processing-response flag and aborts the signal of every stream that is
    being read, and it is not a failure: the API-error flag keeps its value,
    the thread is left as it is (no turn receives an error) and no parked
    exchange is settled through the catch clause.  The same holds for the
    [onCancel] callback that the stream parser invokes. *)
Theorem cancel_is_not_a_failure evs model url stream ovr :
  let w := run evs (connect model url stream ovr) in
  let w' := step Cancel w in
  isProcessingResponse (self w') = false
  ∧ (∀ sig, sig ∈ streamSignals (suspended w) → controllers w' !! sig = Some true)
  ∧ hasAPIError (self w') = hasAPIError (self w)
  ∧ chatThread (self w') = chatThread (self w)
  ∧ suspended w' = suspended w
  ∧ ∀ c, isProcessingResponse (onCancel c) = false
         ∧ hasAPIError (onCancel c) = hasAPIError c
         ∧ chatThread (onCancel c) = chatThread c.
Proof.
  intros w w'. split_and!; try done.
  apply handleUserChatCancel_heap, heapConsistent_reachable.
Qed.

(** C9.  The full reset empties the thread, clears the disabled flag,
    re-enables the default prompts and resets the response-copied flag; it
    ends with the very handler of an explicit cancel, so the
    processing-response flag is cleared, the signal of every stream being
    read is aborted and a fresh controller is installed. *)
Theorem reset_clears_thread_and_cancels evs model url stream ovr :
  let w := run evs (connect model url stream ovr) in
  let w' := step Reset w in
  chatThread (self w') = []
  ∧ isDisabled (self w') = false
  ∧ isDefaultPromptsEnabled (self w') = true
  ∧ isResponseCopied (self w') = false
  ∧ isChatStarted (self w') = false
  ∧ isProcessingResponse (self w') = false
  ∧ (∀ sig, sig ∈ streamSignals (suspended w) → controllers w' !! sig = Some true)
  ∧ controllers w' !! abortController (self w') = Some false
  ∧ ∃ w1, w' = step Cancel w1
          ∧ controllers w1 = controllers w
          ∧ abortController (self w1) = abortController (self w)
          ∧ suspended w1 = suspended w.
Proof.
  intros w w'. split_and!; try done.
  - apply resetCurrentChat_heap, heapConsistent_reachable.
  - apply resetCurrentChat_heap, heapConsistent_reachable.
  - by eexists.
Qed.

(** C10.  In every state the component can reach, a cancellation aborts the
    current controller and installs a new one, at an address that was not
    allocated before and whose signal is not aborted; and whenever a
    streamed exchange starts, the signal handed to the stream parser (with
    the body of the response and the thread as it is then) is the current
    controller's and is not aborted. *)
Theorem fresh_controller_after_cancel evs model url stream ovr :
  let w := run evs (connect model url stream ovr) in
  (let w' := step Cancel w in
   controllers w !! abortController (self w') = None
   ∧ controllers w' !! abortController (self w') = Some false
   ∧ controllers w' !! abortController (self w) = Some true)
  ∧ ∀ k type q resp stamp,
      suspended w !! k = Some (AwaitTransport type q) →
      useStream (self w) = true →
      let w' := step (TransportResolved k resp stamp) w in
      ∃ sig,
        suspended w' = delete k (suspended w)
                       ++ [AwaitStream sig resp
                             {| generation := threadGeneration (self w');
                                arrayLength := length (chatThread (self w')) |}]
        ∧ sig = abortController (self w')
        ∧ controllers w' !! sig = Some false.
Proof.
  intros w. pose proof (heapConsistent_reachable evs model url stream ovr) as Hw.
  fold w in Hw. split.
  - destruct (handleUserChatCancel_heap w Hw) as [[Hnew _] _].
    destruct Hw as [Hcur _]. pose proof (lookup_lt_Some _ _ _ Hcur) as Hlt.
    split_and!.
    + apply lookup_ge_None_2. simpl. by rewrite length_insert.
    + done.
    + simpl. rewrite lookup_app_l by (by rewrite length_insert).
      by apply list_lookup_insert_eq.
  - intros k type q resp stamp Hk Hs w'.
    destruct (streamStart w k type q resp stamp Hk Hs) as (Hp & Ha & Hc & Ht & _).
    pose proof (transportResolved_generation k resp stamp w) as Hg.
    exists (abortController (self w)). fold w' in Hp, Ha, Hc, Ht, Hg.
    rewrite Hp, Ha, Hc, Ht, Hg, length_app, Nat.add_1_r. by destruct Hw as [Hcur _].
Qed.

(** ** Submit *)

Lemma submit_empty stamp w :
  sanitize (questionInput (self w)) = "" →
  step (Submit stamp) w = on_self collapseAside w.
Proof.
  intros Hq. cbn [step]. unfold handleUserChatSubmit.
  change (questionInput (collapseAside (self w))) with (questionInput (self w)).
  by rewrite decide_True.
Qed.

(** What a submission with a non-empty sanitized question does before it
    parks at the transport. *)
Lemma submit_dispatch stamp w :
  let q := sanitize (questionInput (self w)) in
  q ≠ "" →
  let w' := step (Submit stamp) w in
  chatThread (self w') =
    chatThread (self w) ++
      (if decide (interactionModel (self w) = "chat")
       then [messageEntry [] [] [] stamp true q] else [])
  ∧ (∃ call, transport w' = transport w ++ [call]
             ∧ request_question call = q
             ∧ request_type call = interactionModel (self w))
  ∧ suspended w' = suspended w ++ [AwaitTransport (interactionModel (self w)) q]
  ∧ controllers w' = controllers w
  ∧ isDisabled (self w') = true
  ∧ isAwaitingResponse (self w') = true
  ∧ isProcessingResponse (self w') = isProcessingResponse (self w)
  ∧ useStream (self w') = useStream (self w)
  ∧ interactionModel (self w') = interactionModel (self w).
Proof.
  intros q Hq w'. subst w'. cbn [step]. unfold handleUserChatSubmit.
  change (questionInput (collapseAside (self w))) with (questionInput (self w)).
  fold q. rewrite decide_False by done. cbn [self transport suspended controllers].
  change (interactionModel (set_currentQuestion q (collapseAside (self w))))
    with (interactionModel (self w)).
  destruct (decide (interactionModel (self w) = "chat")).
  - split_and!; try done. by eexists.
  - rewrite app_nil_r. split_and!; try done. by eexists.
Qed.

(** A non-streamed response with a first choice is post-processed once and
    appended in one shot. *)
Lemma fullResponse w k type q resp m stamp :
  suspended w !! k = Some (AwaitTransport type q) →
  useStream (self w) = false →
  firstMessage resp = Some m →
  let w' := step (TransportResolved k resp stamp) w in
  let processedText := processText (Bot.content m) in
  chatThread (self w') =
    chatThread (self w) ++
      [messageEntry (arrays0 processedText) (arrays1 processedText)
         (arrays2 processedText) stamp false (replacedText processedText)]
  ∧ suspended w' = delete k (suspended w)
  ∧ isDisabled (self w') = false
  ∧ isAwaitingResponse (self w') = false.
Proof.
  intros Hk Hs Hm. cbn [step]. rewrite Hk. unfold afterTransport.
  cbn [useStream set_isResetInput set_isDisabled set_isAwaitingResponse
       set_questionInput set_questionInput_value set_apiResponse]. rewrite Hs, Hm.
  unfold processApiResponse.
  cbn [useStream set_isResetInput set_isDisabled set_isAwaitingResponse
       set_questionInput set_questionInput_value set_apiResponse set_chatThoughts set_chatDataPoints
       set_canShowThoughtProcess]. rewrite Hs.
  simpl. by rewrite app_nil_r.
Qed.

(** ** How the thread evolves *)

Lemma sameTurn_refl t : sameTurn t t.
Proof. unfold sameTurn. by split_and!; [..|left]. Qed.

Lemma keptTurn_author (target : option nat) (i : nat) t t' :
  (if decide (target = Some i) then filledTurn t t' else sameTurn t t') →
  isUserMessage t' = isUserMessage t ∧ timestamp t' = timestamp t.
Proof.
  destruct (decide _); [intros (? & ? & _)|intros (_ & _ & _ & ? & ? & _)]; done.
Qed.

Lemma turnsKept_refl l : turnsKept None l l.
Proof.
  split; [lia|]. intros i t Ht. exists t. split; [done|].
  rewrite decide_False by done. apply sameTurn_refl.
Qed.

Lemma turnsKept_snoc l x : turnsKept None l (l ++ [x]).
Proof.
  split; [rewrite length_app; simpl; lia|]. intros i t Ht. exists t.
  split; [|rewrite decide_False by done; apply sameTurn_refl].
  rewrite lookup_app_l; [done|]. by eapply lookup_lt_Some.
Qed.

Lemma turnsKept_catch e stamp c :
  turnsKept None (chatThread c) (chatThread (catchClause e stamp c)).
Proof.
  destruct (catchClause_records e stamp c) as [Hturn Hnew].
  destruct (isProcessingResponse c) eqn:Hp;
    [destruct (decide (chatThread c = [])) as [Hnil|Hne]|].
  - destruct Hnew as (t' & -> & _); [by right|]. apply turnsKept_snoc.
  - destruct (Hturn eq_refl Hne)
      as (Hlen & (t0 & t0' & Ht0 & Ht0' & Herr & ? & ? & ? & ? & ?) & Hother).
    split; [lia|]. intros j t Ht.
    destruct (decide (j = pred (length (chatThread c)))) as [->|Hj].
    + exists t0'. split; [done|]. rewrite decide_False by done.
      rewrite Ht0 in Ht. injection Ht as <-.
      unfold sameTurn. split_and!; try done. right. by eexists.
    + rewrite Hother by done. exists t. split; [done|].
      rewrite decide_False by done. apply sameTurn_refl.
  - destruct Hnew as (t' & -> & _); [by left|]. apply turnsKept_snoc.
Qed.

Lemma turnsKept_written wr l i : turnsKept (Some i) l (alter (written wr) i l).
Proof.
  split; [rewrite length_alter; lia|]. intros j t Ht.
  destruct (decide (j = i)) as [->|Hne].
  - exists (written wr t). rewrite list_lookup_alter_eq, Ht. split; [done|].
    by rewrite decide_True.
  - exists t. rewrite list_lookup_alter_ne by done. split; [done|].
    rewrite decide_False by congruence. apply sameTurn_refl.
Qed.

(** An event either empties the thread, which starts a generation, or
    keeps the turns of the thread. *)
Lemma step_thread ev w :
  (chatThread (self (step ev w)) = []
   ∧ (threadGeneration (self w) < threadGeneration (self (step ev w)))%nat
   ∧ (ev = Reset ∨ ev = ShowDefaultPrompts))
  ∨ (threadGeneration (self (step ev w)) = threadGeneration (self w)
     ∧ turnsKept (parserTarget ev w)
         (chatThread (self w)) (chatThread (self (step ev w)))).
Proof.
  destruct ev; cbn [step parserTarget];
    try (right; refine (conj _ (turnsKept_refl _)); reflexivity).
  - (* Submit *)
    right. split; [apply submit_generation|].
    destruct (decide (sanitize (questionInput (self w)) = "")) as [Hq|Hq].
    + pose proof (submit_empty stamp w Hq) as E. cbn [step] in E. rewrite E.
      apply turnsKept_refl.
    + destruct (submit_dispatch stamp w Hq) as (Hthread & _).
      cbn [step] in Hthread. rewrite Hthread. destruct (decide _).
      * apply turnsKept_snoc.
      * rewrite app_nil_r. apply turnsKept_refl.
  - (* Reset *) left. split_and!; [done|simpl; lia|by left].
  - unfold showDefaultPrompts. destruct (isDefaultPromptsEnabled _).
    + right. refine (conj _ (turnsKept_refl _)); reflexivity.
    + left. split_and!; [done|simpl; lia|by right].
  - (* TransportResolved *)
    right. split; [apply transportResolved_generation|]. cbn [step].
    destruct (suspended w !! k) as [[type q|]|] eqn:Hk; try apply turnsKept_refl.
    destruct (useStream (self w)) eqn:Hs.
    + pose proof (streamStart w k type q resp stamp Hk Hs) as (_ & _ & _ & Hthread & _).
      cbn [step] in Hthread. rewrite Hk in Hthread. rewrite Hthread.
      apply turnsKept_snoc.
    + destruct (firstMessage resp) as [m|] eqn:Hm.
      * pose proof (fullResponse w k type q resp m stamp Hk Hs Hm) as (Hthread & _).
        cbn [step] in Hthread. rewrite Hk in Hthread. rewrite Hthread.
        apply turnsKept_snoc.
      * destruct (step_malformed_response w k type q resp stamp Hk Hs Hm)
          as (c1 & Hthread & _ & Hstep).
        cbn [step] in Hstep. rewrite Hk in Hstep. rewrite Hstep. cbn [self].
        rewrite <- Hthread. apply turnsKept_catch.
  - destruct (suspended w !! k) as [[type q|]|] eqn:Hk;
      try (right; refine (conj _ (turnsKept_refl _)); reflexivity).
    right. cbn [settle self]. split; [apply catchClause_generation|apply turnsKept_catch].
  - (* ChunkRead *)
    destruct (suspended w !! k) as [[|sig r h]|] eqn:Hk;
      try (right; refine (conj _ (turnsKept_refl _)); reflexivity).
    destruct (decide (controllers w !! sig = Some true));
      [right; refine (conj _ (turnsKept_refl _)); reflexivity|].
    cbn [self on_self]. unfold parserWrites.
    destruct (decide (generation h = _)); right; (split; [reflexivity|]).
    + apply turnsKept_written.
    + apply turnsKept_refl.
  - destruct (suspended w !! k) as [[|sig r h]|] eqn:Hk;
      right; refine (conj _ (turnsKept_refl _)); reflexivity.
  - destruct (suspended w !! k) as [[|sig r h]|] eqn:Hk;
      right; refine (conj _ (turnsKept_refl _)); reflexivity.
  - destruct (suspended w !! k) as [[|sig r h]|] eqn:Hk;
      try (right; refine (conj _ (turnsKept_refl _)); reflexivity).
    right. cbn [settle self]. split; [apply catchClause_generation|apply turnsKept_catch].
Qed.

(** A stream that is being read after an event was being read before it,
    or has just been started on the entry prepared for it. *)
Lemma step_parked ev w sig r h :
  AwaitStream sig r h ∈ suspended (step ev w) →
  AwaitStream sig r h ∈ suspended w
  ∨ (generation h = threadGeneration (self (step ev w))
     ∧ ∃ t, chatThread (self (step ev w)) !! pred (arrayLength h) = Some t
            ∧ isUserMessage t = false).
Proof.
  destruct ev; cbn [step]; try (intros Hin; left; exact Hin).
  - unfold handleUserChatSubmit. destruct (decide _); [by left|].
    cbn [suspended]. intros [Hin|Heq%list_elem_of_singleton]%elem_of_app; [by left|done].
  - unfold showDefaultPrompts. destruct (isDefaultPromptsEnabled _); by left.
  - pose proof (transportResolved_generation k resp stamp w) as Hgen.
    cbn [step] in Hgen. revert Hgen.
    destruct (suspended w !! k) as [[type q|]|] eqn:Hk; try (by left).
    intros Hgen. destruct (useStream (self w)) eqn:Hs.
    + pose proof (streamStart w k type q resp stamp Hk Hs)
        as (Hparked & _ & _ & Hthread & _).
      cbn [step] in Hparked, Hthread. rewrite Hk in Hparked, Hthread.
      rewrite Hparked, Hthread, Hgen.
      intros [Hin%list_elem_of_delete_inv|Heq%list_elem_of_singleton]%elem_of_app;
        [by left|right].
      injection Heq as -> -> ->. cbn [generation arrayLength pred]. split; [done|].
      eexists. by rewrite lookup_app_r, Nat.sub_diag.
    + destruct (firstMessage resp) as [m|] eqn:Hm.
      * pose proof (fullResponse w k type q resp m stamp Hk Hs Hm) as (_ & Hparked & _).
        cbn [step] in Hparked. rewrite Hk in Hparked. rewrite Hparked.
        intros Hin%list_elem_of_delete_inv. by left.
      * destruct (step_malformed_response w k type q resp stamp Hk Hs Hm)
          as (c1 & _ & _ & Hstep).
        cbn [step] in Hstep. rewrite Hk in Hstep. rewrite Hstep. cbn [suspended].
        intros Hin%list_elem_of_delete_inv. by left.
  - destruct (suspended w !! k) as [[type q|]|] eqn:Hk; try (by left).
    cbn [settle suspended]. intros Hin%list_elem_of_delete_inv. by left.
  - destruct (suspended w !! k) as [[|sig' r' h']|]; try (by left).
    destruct (decide _); by left.
  - destruct (suspended w !! k) as [[|sig' r' h']|]; by left.
  - destruct (suspended w !! k) as [[|sig' r' h']|]; try (by left).
    cbn [settle suspended option_list]. rewrite app_nil_r.
    intros Hin%list_elem_of_delete_inv. by left.
  - destruct (suspended w !! k) as [[|sig' r' h']|]; try (by left).
    cbn [settle suspended]. intros Hin%list_elem_of_delete_inv. by left.
Qed.

Lemma parsersFillAssistantTurns_step ev w :
  parsersFillAssistantTurns w → parsersFillAssistantTurns (step ev w).
Proof.
  intros Hw sig r h [Hin|[Hgen Ht]]%step_parked.
  - destruct (Hw sig r h Hin) as [Hle Hfill].
    destruct (step_thread ev w) as [(_ & Hlt & _)|[Hsame [_ Hkept]]].
    + split; [lia|]. intros Heq. lia.
    + rewrite Hsame. split; [done|]. intros Heq.
      destruct (Hfill Heq) as (t & Hlook & Huser).
      destruct (Hkept _ _ Hlook) as (t' & Hlook' & Hsame').
      exists t'. split; [done|]. apply keptTurn_author in Hsame' as [-> _]. done.
  - split; [lia|]. by intros _.
Qed.

Lemma parsersFillAssistantTurns_run evs w :
  parsersFillAssistantTurns w → parsersFillAssistantTurns (run evs w).
Proof.
  revert w. induction evs as [|ev evs IH]; intros w Hw; [done|].
  apply IH. by apply parsersFillAssistantTurns_step.
Qed.

Lemma parsersFillAssistantTurns_reachable evs model url stream ovr :
  parsersFillAssistantTurns (run evs (connect model url stream ovr)).
Proof.
  apply parsersFillAssistantTurns_run. intros sig r h Hin. by apply elem_of_nil in Hin.
Qed.


(** ** Only sanitized text leaves the input field *)

Lemma catchClause_sanitized e stamp c :
  Forall userTurnSanitized (chatThread c) →
  Forall userTurnSanitized (chatThread (catchClause e stamp c)).
Proof.
  intros Hc. unfold catchClause.
  destruct (if isProcessingResponse c then _ else _); simpl.
  - apply Forall_alter; [done|]. intros t _ Ht. exact Ht.
  - apply Forall_app. split; [done|]. by apply Forall_singleton.
Qed.

Lemma processApiResponse_sanitized msg stamp c :
  Forall userTurnSanitized (chatThread c) →
  Forall userTurnSanitized (chatThread (processApiResponse msg false stamp c).1).
Proof.
  intros Hc. unfold processApiResponse. destruct (useStream c); simpl;
    (apply Forall_app; split; [done|]); by apply Forall_singleton.
Qed.

Lemma afterTransport_sanitized resp stamp c :
  Forall userTurnSanitized (chatThread c) →
  match afterTransport resp stamp c with
  | Normal c' _ | Abrupt _ c' => Forall userTurnSanitized (chatThread c')
  end.
Proof.
  intros Hc. unfold afterTransport.
  cbn [useStream set_isResetInput set_isDisabled set_isAwaitingResponse
       set_questionInput set_questionInput_value set_apiResponse].
  destruct (useStream c).
  - by apply processApiResponse_sanitized.
  - destruct (firstMessage resp); [|done]. by apply processApiResponse_sanitized.
Qed.

Lemma settle_sanitized k r stamp w :
  match r with
  | Normal c' _ | Abrupt _ c' => Forall userTurnSanitized (chatThread c')
  end →
  onlySanitizedText w → onlySanitizedText (settle k r stamp w).
Proof.
  intros Hr [Ht _]. split; destruct r; simpl; try done.
  by apply catchClause_sanitized.
Qed.

Lemma onlySanitizedText_step ev w :
  parsersFillAssistantTurns w →
  onlySanitizedText w → onlySanitizedText (step ev w).
Proof.
  intros Hfill Hw. destruct ev; cbn [step];
    try (destruct Hw as [Ht Hc]; split; [exact Ht|exact Hc]).
  - (* Submit *)
    destruct (decide (sanitize (questionInput (self w)) = "")) as [Hq|Hq].
    + pose proof (submit_empty stamp w Hq) as E. cbn [step] in E. rewrite E.
      destruct Hw as [Ht Hc]. split; [exact Ht|exact Hc].
    + destruct (submit_dispatch stamp w Hq)
        as (Hthread & (call & Hcall & Hquestion & _) & _).
      destruct Hw as [Ht Hc]. cbn [step] in Hthread, Hcall. split.
      * rewrite Hcall. intros call' [Hin| ->%list_elem_of_singleton]%elem_of_app; eauto.
      * rewrite Hthread. apply Forall_app. split; [exact Hc|].
        destruct (decide _); [|constructor]. apply Forall_singleton.
        intros _. by eexists.
  - (* Reset *) destruct Hw as [Ht _]. split; [exact Ht|constructor].
  - unfold showDefaultPrompts. destruct (isDefaultPromptsEnabled _); [exact Hw|].
    destruct Hw as [Ht _]. split; [exact Ht|constructor].
  - destruct (suspended w !! k) as [[]|]; try exact Hw.
    apply settle_sanitized; [|exact Hw]. apply afterTransport_sanitized, Hw.
  - destruct (suspended w !! k) as [[]|]; try exact Hw.
    apply settle_sanitized; [|exact Hw]. apply Hw.
  - (* ChunkRead *)
    destruct (suspended w !! k) as [[|sig r h]|] eqn:Hk; try exact Hw.
    destruct (decide _); [exact Hw|]. destruct Hw as [Ht Hc]. split; [exact Ht|].
    cbn [self on_self]. unfold parserWrites.
    destruct (decide _) as [Hgen|]; [|exact Hc].
    cbn [chatThread set_chatThread]. apply Forall_alter; [exact Hc|].
    intros t Hlook _.
    destruct (Hfill sig r h (list_elem_of_lookup_2 _ _ _ Hk)) as [_ Hassistant].
    destruct (Hassistant Hgen) as (t0 & Hlook0 & Huser).
    rewrite Hlook in Hlook0. injection Hlook0 as <-.
    unfold userTurnSanitized. cbn [isUserMessage written]. congruence.
  - destruct (suspended w !! k) as [[]|]; exact Hw.
  - destruct (suspended w !! k) as [[]|]; exact Hw.
  - destruct (suspended w !! k) as [[]|]; try exact Hw.
    apply settle_sanitized; [|exact Hw]. apply Hw.
Qed.

Lemma onlySanitizedText_reachable evs model url stream ovr :
  onlySanitizedText (run evs (connect model url stream ovr)).
Proof.
  assert (onlySanitizedText (connect model url stream ovr)) as Hinit.
  { split; [|done]. intros call Hin. by apply elem_of_nil in Hin. }
  assert (parsersFillAssistantTurns (connect model url stream ovr)) as Hfill.
  { intros sig r h Hin. by apply elem_of_nil in Hin. }
  revert Hinit Hfill. generalize (connect model url stream ovr).
  induction evs as [|ev evs IH]; intros w Hw Hfill; [done|].
  apply IH; [by apply onlySanitizedText_step|by apply parsersFillAssistantTurns_step].
Qed.

(** C2 (amended).  A submission whose sanitized question is the empty
    string is a no-op on the exchange: the thread is not touched, the
    transport is not called and nothing is parked; the handler only
    collapses the aside. *)
Theorem empty_question_is_not_dispatched stamp w :
  sanitize (questionInput (self w)) = "" →
  let w' := step (Submit stamp) w in
  chatThread (self w') = chatThread (self w)
  ∧ transport w' = transport w
  ∧ suspended w' = suspended w
  ∧ w' = on_self collapseAside w.
Proof. intros Hq w'. subst w'. by rewrite (submit_empty _ _ Hq). Qed.

(** C3 (amended).  The submit handler does not look at the exchanges in
    flight: with a non-empty sanitized question it always calls the
    transport and parks a new activation.  Re-submission is gated by the
    rendered control instead: after a dispatch the disabled flag is set, so
    no enabled submit button is rendered, and once the streamed response of
    the dispatched exchange starts the cancel button is rendered in its
    place. *)
Theorem resubmission_is_gated_by_the_button stamp w :
  sanitize (questionInput (self w)) ≠ "" →
  let w' := step (Submit stamp) w in
  length (transport w') = S (length (transport w))
  ∧ length (suspended w') = S (length (suspended w))
  ∧ isDisabled (self w') = true
  ∧ renderChatOrCancelButton (self w') ≠ SubmitChatButton false
  ∧ ∀ k type q resp stamp',
      suspended w' !! k = Some (AwaitTransport type q) →
      useStream (self w') = true →
      renderChatOrCancelButton (self (step (TransportResolved k resp stamp') w'))
        = CancelChatButton.
Proof.
  intros Hq w'.
  destruct (submit_dispatch stamp w Hq)
    as (_ & (call & Hcall & _) & Hparked & _ & Hdis & _).
  fold w' in Hcall, Hparked, Hdis. split_and!.
  - rewrite Hcall, length_app. simpl. lia.
  - rewrite Hparked, length_app. simpl. lia.
  - done.
  - unfold renderChatOrCancelButton. rewrite Hdis.
    by destruct (isProcessingResponse (self w')).
  - intros k type q resp stamp' Hk Hs.
    destruct (streamStart w' k type q resp stamp' Hk Hs) as (_ & _ & _ & _ & Hproc).
    unfold renderChatOrCancelButton. by rewrite Hproc.
Qed.

(** C6.  A submission with a non-empty sanitized question parks at the
    transport; in chat mode the user turn holding the question is already
    appended at that point, in any other mode the thread is as it was, and
    when the response of that exchange is then processed the thread has
    gained the assistant turn and nothing else. *)
Theorem user_turn_is_echoed_in_chat_mode_only stamp w :
  let q := sanitize (questionInput (self w)) in
  q ≠ "" →
  let w' := step (Submit stamp) w in
  let k := length (suspended w) in
  suspended w' !! k = Some (AwaitTransport (interactionModel (self w)) q)
  ∧ (interactionModel (self w) = "chat" →
       ∃ t, chatThread (self w') = chatThread (self w) ++ [t]
            ∧ text t = [ {| value := q; followingSteps := [] |} ]
            ∧ isUserMessage t = true
            ∧ timestamp t = stamp)
  ∧ (interactionModel (self w) ≠ "chat" →
       chatThread (self w') = chatThread (self w)
       ∧ ∀ resp stamp',
           useStream (self w) = true ∨ is_Some (firstMessage resp) →
           ∃ t, chatThread (self (step (TransportResolved k resp stamp') w'))
                  = chatThread (self w) ++ [t]
                ∧ isUserMessage t = false).
Proof.
  intros q Hq w' k.
  destruct (submit_dispatch stamp w Hq)
    as (Hthread & _ & Hparked & _ & _ & _ & _ & Hstream & _).
  fold w' q in Hthread, Hparked, Hstream.
  assert (suspended w' !! k = Some (AwaitTransport (interactionModel (self w)) q)) as Hk.
  { rewrite Hparked. subst k. by rewrite lookup_app_r, Nat.sub_diag. }
  split_and!; [done| |].
  - intros Hchat. rewrite decide_True in Hthread by done. by eexists.
  - intros Hask. rewrite decide_False, app_nil_r in Hthread by done.
    split; [done|]. intros resp stamp' Hresp.
    destruct (useStream (self w)) eqn:Hs.
    + destruct (streamStart w' k _ _ resp stamp' Hk Hstream) as (_ & _ & _ & -> & _).
      rewrite Hthread. by eexists.
    + destruct Hresp as [?|[m Hm]]; [done|].
      destruct (fullResponse w' k _ _ resp m stamp' Hk Hstream Hm) as (-> & _).
      rewrite Hthread. by eexists.
Qed.

(** C8.  The question handed to the transport, and echoed into the thread
    in chat mode, is the sanitizer applied to the value of the input field;
    a value set by voice dictation or by a teaser click is sanitizer output
    as the text input keeps it, that is without its line breaks, and it is
    sanitized again when it is submitted; and in every state the component
    can reach, every question in a transport call and every user turn of the
    thread is sanitizer output. *)
Theorem only_sanitized_text_is_dispatched stamp w raw c evs model url stream ovr :
  (let q := sanitize (questionInput (self w)) in
   let w' := step (Submit stamp) w in
   q ≠ "" →
   (∃ call, transport w' = transport w ++ [call] ∧ request_question call = q)
   ∧ (interactionModel (self w) = "chat" →
        ∃ t, chatThread (self w') = chatThread (self w) ++ [t]
             ∧ text t = [ {| value := q; followingSteps := [] |} ]
             ∧ isUserMessage t = true))
  ∧ questionInput (handleVoiceInput raw c) = stripNewlines (sanitize (orEmpty raw))
  ∧ questionInput (handleOnTeaserClick raw c) = stripNewlines (sanitize (orEmpty raw))
  ∧ onlySanitizedText (run evs (connect model url stream ovr)).
Proof.
  split_and!; [|done|done|apply onlySanitizedText_reachable].
  intros q w' Hq.
  destruct (submit_dispatch stamp w Hq) as (Hthread & (call & Hcall & Hquestion & _) & _).
  fold w' q in Hthread, Hcall, Hquestion. split; [by eauto|].
  intros Hchat. rewrite decide_True in Hthread by done. by eexists.
Qed.

(** ** Citations *)

Lemma setSpreadFrom_sublist seen xs : setSpreadFrom seen xs `sublist_of` xs.
Proof.
  revert seen. induction xs as [|x xs IH]; intros seen; simpl; [constructor|].
  destruct (decide _); by constructor.
Qed.

Lemma setSpreadFrom_unseen seen xs x :
  x ∈ setSpreadFrom seen xs → Citation.oid x ∉ seen.
Proof.
  revert seen. induction xs as [|y xs IH]; intros seen; simpl.
  - by intros ?%elem_of_nil.
  - destruct (decide _) as [|Hy]; [by apply IH|].
    intros [->|Hin]%elem_of_cons; [done|].
    apply IH in Hin. by apply not_elem_of_cons in Hin as [_ ?].
Qed.

Lemma setSpreadFrom_NoDup seen xs : NoDup (Citation.oid <$> setSpreadFrom seen xs).
Proof.
  revert seen. induction xs as [|x xs IH]; intros seen; simpl; [constructor|].
  destruct (decide _); [by apply IH|]. rewrite fmap_cons. apply NoDup_cons. split; [|by apply IH].
  intros (y & Hoid & Hy)%list_elem_of_fmap.
  apply setSpreadFrom_unseen in Hy. apply Hy. rewrite <- Hoid. by left.
Qed.

Lemma setSpreadFrom_complete seen xs x :
  x ∈ xs → Citation.oid x ∈ seen ∨ Citation.oid x ∈ Citation.oid <$> setSpreadFrom seen xs.
Proof.
  revert seen. induction xs as [|y xs IH]; intros seen; simpl.
  - by intros ?%elem_of_nil.
  - intros [->|Hin]%elem_of_cons.
    + destruct (decide _); [by left|]. right. rewrite fmap_cons. by left.
    + destruct (decide _); [by apply IH|].
      destruct (IH (Citation.oid y :: seen) Hin) as [[->|?]%elem_of_cons|?].
      * right. rewrite fmap_cons. by left.
      * by left.
      * right. rewrite fmap_cons. by right.
Qed.

Lemma setSpreadFrom_distinct seen xs :
  NoDup (Citation.oid <$> xs) →
  (∀ x, x ∈ xs → Citation.oid x ∉ seen) →
  setSpreadFrom seen xs = xs.
Proof.
  revert seen. induction xs as [|x xs IH]; intros seen Hnd Hseen; simpl; [done|].
  rewrite fmap_cons in Hnd. apply NoDup_cons in Hnd as [Hx Hnd].
  rewrite decide_False by (apply Hseen; by left). f_equal.
  apply IH; [done|]. intros y Hy. apply not_elem_of_cons. split.
  - intros Heq. apply Hx. rewrite <- Heq. by apply list_elem_of_fmap_2.
  - apply Hseen. by right.
Qed.

(** The merge step of the non-chunk branch compares objects: the attached
    list is the one at hand with repeated references to one object removed,
    and it is the list itself when its objects are pairwise distinct. *)
Lemma merge_compares_objects cits steps fups stamp isUser part c :
  let r := updateChatWithMessageOrChunk cits steps fups stamp isUser part false c in
  ∃ t merged,
     chatThread r.1 = chatThread c ++ [t]
     ∧ citations t = Some merged
     ∧ merged `sublist_of` cits
     ∧ NoDup (Citation.oid <$> merged)
     ∧ (∀ x, x ∈ cits → Citation.oid x ∈ Citation.oid <$> merged)
     ∧ (NoDup (Citation.oid <$> cits) → merged = cits).
Proof.
  exists (messageEntry cits steps fups stamp isUser part), (setSpread cits).
  split_and!; [done|done|apply setSpreadFrom_sublist|apply setSpreadFrom_NoDup| |].
  - intros x Hx. destruct (setSpreadFrom_complete [] cits x Hx) as [?%elem_of_nil|?]; done.
  - intros Hnd. apply setSpreadFrom_distinct; [done|]. intros x _. apply not_elem_of_nil.
Qed.

(** *** The numbering of the extractor *)








Lemma numberCitations_extracts markers : extractsCitations markers (numberCitations markers).
Proof.
  unfold extractsCitations, numberCitations, numbered.
  generalize (firstSeen markers). intros l. split.
  - apply list_eq. intros i. rewrite list_lookup_fmap, !list_lookup_imap.
    by destruct (l !! i).
  - apply NoDup_alt. intros i j x.
    rewrite !list_lookup_fmap, !list_lookup_imap.
    destruct (l !! i), (l !! j); simpl; congruence.
Qed.


End Properties.

(** ** Whole exchanges *)

Section Exchanges.
Context `{Collaborators} `{GlobalConfig}.

Lemma delete_last_parked (parked : list Suspended) p :
  delete (length parked) (parked ++ [p]) = parked.
Proof. by rewrite delete_middle, app_nil_r. Qed.

Lemma settle_transport k r stamp w : transport (settle k r stamp w) = transport w.
Proof. by destruct r. Qed.

Lemma step_keeps_transport ev w :
  (∀ stamp, ev ≠ Submit stamp) → transport (step ev w) = transport w.
Proof.
  intros Hev. destruct ev; cbn [step]; try reflexivity.
  - by destruct (Hev stamp).
  - unfold showDefaultPrompts. by destruct (isDefaultPromptsEnabled _).
  - destruct (suspended w !! k) as [[]|]; first [reflexivity|apply settle_transport].
  - destruct (suspended w !! k) as [[]|]; first [reflexivity|apply settle_transport].
  - destruct (suspended w !! k) as [[]|]; try reflexivity. by destruct (decide _).
  - by destruct (suspended w !! k) as [[]|].
  - destruct (suspended w !! k) as [[]|]; first [reflexivity|apply settle_transport].
  - destruct (suspended w !! k) as [[]|]; first [reflexivity|apply settle_transport].
Qed.

(** What the resolution of the transport does to the fields around the
    thread, whatever the mode and the response. *)
Lemma transportResolved_fields w k type q resp stamp :
  suspended w !! k = Some (AwaitTransport type q) →
  let c' := self (step (TransportResolved k resp stamp) w) in
  questionInput c' = ""
  ∧ isResetInput c' = false
  ∧ isAwaitingResponse c' = false
  ∧ isDisabled c' = false
  ∧ apiResponse c' = resp
  ∧ currentQuestion c' = currentQuestion (self w).
Proof.
  intros Hk. cbn [step]. rewrite Hk. unfold afterTransport.
  cbn [useStream set_isResetInput set_isDisabled set_isAwaitingResponse
       set_questionInput set_questionInput_value set_apiResponse].
  destruct (useStream (self w)) eqn:Hs.
  - unfold processApiResponse.
    cbn [useStream set_isResetInput set_isDisabled set_isAwaitingResponse
         set_questionInput set_questionInput_value set_apiResponse]. by rewrite Hs.
  - destruct (firstMessage resp) as [m|].
    + unfold processApiResponse.
      cbn [useStream set_isResetInput set_isDisabled set_isAwaitingResponse
           set_questionInput set_questionInput_value set_apiResponse set_chatThoughts set_chatDataPoints
           set_canShowThoughtProcess]. by rewrite Hs.
    + cbn [settle self]. unfold catchClause.
      by destruct (if isProcessingResponse _ then _ else _).
Qed.

Lemma fullResponse_thoughts w k type q resp m stamp :
  suspended w !! k = Some (AwaitTransport type q) →
  useStream (self w) = false →
  firstMessage resp = Some m →
  let c' := self (step (TransportResolved k resp stamp) w) in
  chatThoughts c' = Some (default "" (Bot.context m ≫= Bot.thoughts))
  ∧ chatDataPoints c' = default [] (Bot.context m ≫= Bot.data_points)
  ∧ canShowThoughtProcess c' = true
  ∧ isProcessingResponse c' = isProcessingResponse (self w)
  ∧ hasAPIError c' = hasAPIError (self w).
Proof.
  intros Hk Hs Hm. cbn [step]. rewrite Hk. unfold afterTransport.
  cbn [useStream set_isResetInput set_isDisabled set_isAwaitingResponse
       set_questionInput set_questionInput_value set_apiResponse]. rewrite Hs, Hm.
  unfold processApiResponse.
  cbn [useStream set_isResetInput set_isDisabled set_isAwaitingResponse
       set_questionInput set_questionInput_value set_apiResponse set_chatThoughts set_chatDataPoints
       set_canShowThoughtProcess]. by rewrite Hs.
Qed.

Lemma submit_echo stamp w :
  let q := sanitize (questionInput (self w)) in
  q ≠ "" →
  ∃ user, chatThread (self (step (Submit stamp) w)) = chatThread (self w) ++ user
          ∧ userTurnEchoed (interactionModel (self w)) q stamp user.
Proof.
  intros q Hq. destruct (submit_dispatch stamp w Hq) as (Hthread & _).
  fold q in Hthread. eexists. split; [exact Hthread|].
  split; intros Hmodel.
  - rewrite decide_True by done. eexists. by split; [|split_and!].
  - by rewrite decide_False.
Qed.

(** X1.  A whole non-streamed exchange: a submission followed by a
    response that has a first choice.  The thread gains the user turn (in
    chat mode: the question as its only text, at the time of the submission)
    and the assistant turn: its text is the text that the extractor returns
    with the steps, its follow-up questions are the extractor's, its
    citations are the extractor's citations merged, it carries the time of
    the response and no error.  The transport was called once, nothing
    stays parked, the input is cleared and enabled again, and the thoughts
    and data points are those of the response, or the empty string and the
    empty list where the context or the key is missing. *)
Theorem non_streamed_exchange w stamp resp m stamp' :
  let q := sanitize (questionInput (self w)) in
  q ≠ "" →
  useStream (self w) = false →
  firstMessage resp = Some m →
  let w' := run [Submit stamp; TransportResolved (length (suspended w)) resp stamp'] w in
  let processedText := processText (Bot.content m) in
  (∃ user answer,
     chatThread (self w') = chatThread (self w) ++ user ++ [answer]
     ∧ userTurnEchoed (interactionModel (self w)) q stamp user
     ∧ turnHas answer
         [ {| value := replacedText processedText;
              followingSteps := arrays1 processedText |} ]
         (Some (arrays2 processedText))
         (Some (setSpread (arrays0 processedText)))
         stamp' false None)
  ∧ (∃ call, transport w' = transport w ++ [call] ∧ request_question call = q)
  ∧ suspended w' = suspended w
  ∧ questionInput (self w') = ""
  ∧ isDisabled (self w') = false
  ∧ isAwaitingResponse (self w') = false
  ∧ hasAPIError (self w') = false
  ∧ chatThoughts (self w') = Some (default "" (Bot.context m ≫= Bot.thoughts))
  ∧ chatDataPoints (self w') = default [] (Bot.context m ≫= Bot.data_points)
  ∧ canShowThoughtProcess (self w') = true.
Proof.
  intros q Hq Hs Hm w' processedText. subst w'. cbn [run foldl].
  set (w1 := step (Submit stamp) w).
  destruct (submit_dispatch stamp w Hq)
    as (_ & Hcall & Hparked & _ & _ & _ & _ & Hstream & _).
  destruct (submit_echo stamp w Hq) as (user & Hthread & Huser).
  fold q w1 in Hthread, Hcall, Hparked, Hstream, Huser.
  assert (suspended w1 !! length (suspended w)
          = Some (AwaitTransport (interactionModel (self w)) q)) as Hk.
  { by rewrite Hparked, lookup_app_r, Nat.sub_diag. }
  rewrite Hs in Hstream.
  destruct (fullResponse w1 _ _ _ resp m stamp' Hk Hstream Hm) as (Hthread' & Hparked' & _).
  destruct (fullResponse_thoughts w1 _ _ _ resp m stamp' Hk Hstream Hm)
    as (Hthoughts & Hpoints & Hcan & _ & Herr).
  destruct (transportResolved_fields w1 _ _ _ resp stamp' Hk)
    as (Hinput & _ & Hawait & Hdis & _).
  split_and!; try done.
  - exists user. eexists. split; [|split; [exact Huser|]].
    + rewrite Hthread', Hthread. by rewrite <- app_assoc.
    + by split_and!.
  - rewrite step_keeps_transport by done. destruct Hcall as (call & ? & ? & _). eauto.
  - by rewrite Hparked', Hparked, delete_last_parked.
  - rewrite Herr. subst w1. cbn [step]. unfold handleUserChatSubmit.
    change (questionInput (collapseAside (self w))) with (questionInput (self w)).
    fold q. rewrite decide_False by done. cbn [self]. by destruct (decide _).
Qed.

(** What the parser leaves in the entry that it fills. *)
Lemma filledBy_written writes t0 :
  let t := foldl (λ t wr, written wr t) t0 writes in
  timestamp t = timestamp t0 ∧ isUserMessage t = isUserMessage t0 ∧ error t = error t0
  ∧ match last writes with
    | Some wr =>
        text t = written_text wr
        ∧ followupQuestions t = written_followupQuestions wr
        ∧ citations t = written_citations wr
    | None => t = t0
    end.
Proof.
  induction writes as [|wr writes IH] using rev_ind; [done|].
  rewrite foldl_app, last_snoc. simpl. destruct IH as (? & ? & ? & _). done.
Qed.

(** The rounds of a parser whose signal is not aborted, and whose entry is
    the last of the thread, change that entry and nothing else. *)
Lemma chunksRead writes w k sig r h before t0 :
  suspended w !! k = Some (AwaitStream sig r h) →
  controllers w !! sig = Some false →
  generation h = threadGeneration (self w) →
  arrayLength h = S (length before) →
  chatThread (self w) = before ++ [t0] →
  run (ChunkRead k <$> writes) w =
    on_self (set_chatThread (before ++ [foldl (λ t wr, written wr t) t0 writes])) w.
Proof.
  intros Hk Hsig Hgen Hlen. revert t0.
  induction writes as [|wr writes IH] using rev_ind; intros t0 Hthread.
  - simpl. rewrite <- Hthread. by destruct w as [[]].
  - rewrite fmap_app. unfold run in *. rewrite foldl_app, (IH _ Hthread). simpl.
    rewrite Hk, decide_False by congruence.
    unfold on_self, parserWrites. cbn [self threadGeneration set_chatThread chatThread].
    rewrite decide_True by done. f_equal.
    rewrite Hlen. cbn [pred]. rewrite foldl_app. simpl.
    replace (length before) with (length before + 0)%nat at 1 by lia.
    rewrite alter_app_r. done.
Qed.

(** X2.  A whole streamed exchange in a state that the component can
    reach: a submission, the start of the stream, any number of rounds of
    the parser and the normal end of the stream.  At the start the thread
    has gained the user turn (in chat mode) and the entry prepared for the
    stream, an assistant turn with one empty text segment, no citation and
    no follow-up question, and the parser was handed the signal of the
    current controller.  At the end that turn holds what the parser wrote
    last, under the same timestamp and without an error, nothing stays
    parked, the processing flag is cleared again and the thoughts and data
    points are those that the parser resolved with. *)
Theorem streamed_exchange evs model url stream ovr stamp resp stamp' writes result :
  let w := run evs (connect model url stream ovr) in
  let q := sanitize (questionInput (self w)) in
  q ≠ "" →
  useStream (self w) = true →
  let k := length (suspended w) in
  let w2 := run [Submit stamp; TransportResolved k resp stamp'] w in
  let w3 := run (ChunkRead k <$> writes) w2 in
  let w4 := step (StreamResolved k result) w3 in
  (∃ handed,
     suspended w2 = suspended w ++ [AwaitStream (abortController (self w)) resp handed])
  ∧ isProcessingResponse (self w2) = true
  ∧ (∃ user answer,
       chatThread (self w2) = chatThread (self w) ++ user ++ [answer]
       ∧ userTurnEchoed (interactionModel (self w)) q stamp user
       ∧ turnHas answer [ {| value := ""; followingSteps := [] |} ]
           (Some []) (Some []) stamp' false None)
  ∧ (∃ user answer,
       chatThread (self w4) = chatThread (self w) ++ user ++ [answer]
       ∧ userTurnEchoed (interactionModel (self w)) q stamp user
       ∧ filledBy writes answer
       ∧ timestamp answer = stamp'
       ∧ isUserMessage answer = false
       ∧ error answer = None)
  ∧ suspended w4 = suspended w
  ∧ isProcessingResponse (self w4) = false
  ∧ isDisabled (self w4) = false
  ∧ isAwaitingResponse (self w4) = false
  ∧ questionInput (self w4) = ""
  ∧ chatThoughts (self w4) = result_thoughts result
  ∧ chatDataPoints (self w4) = result_data_points result
  ∧ canShowThoughtProcess (self w4) = true.
Proof.
  intros w q Hq Hs k w2 w3 w4.
  pose proof (heapConsistent_reachable evs model url stream ovr) as [Hcur _].
  fold w in Hcur. subst w4 w3 w2. cbn [run foldl].
  set (w1 := step (Submit stamp) w).
  destruct (submit_dispatch stamp w Hq)
    as (_ & _ & Hparked & Hheap & _ & _ & _ & Hstream & _).
  destruct (submit_echo stamp w Hq) as (user & Hthread & Huser).
  fold q w1 in Hthread, Hparked, Hstream, Hheap, Huser.
  assert (suspended w1 !! k = Some (AwaitTransport (interactionModel (self w)) q)) as Hk.
  { subst k. by rewrite Hparked, lookup_app_r, Nat.sub_diag. }
  rewrite Hs in Hstream.
  destruct (streamStart w1 k _ _ resp stamp' Hk Hstream)
    as (Hparked2 & Hac & Hheap2 & Hthread2 & Hproc).
  destruct (transportResolved_fields w1 k _ _ resp stamp' Hk)
    as (Hinput & _ & Hawait & Hdis & _).
  pose proof (transportResolved_generation k resp stamp' w1) as Hgen.
  set (w2 := step (TransportResolved k resp stamp') w1) in *.
  assert (abortController (self w1) = abortController (self w)) as Hac1.
  { subst w1. cbn [step]. unfold handleUserChatSubmit.
    change (questionInput (collapseAside (self w))) with (questionInput (self w)).
    fold q. rewrite decide_False by done. cbn [self]. by destruct (decide _). }
  set (h := {| generation := threadGeneration (self w1);
               arrayLength := S (length (chatThread (self w1))) |}) in *.
  assert (suspended w2 = suspended w ++ [AwaitStream (abortController (self w)) resp h])
    as Hparked2'.
  { rewrite Hparked2, Hparked. subst k. by rewrite delete_last_parked, Hac1. }
  assert (suspended w2 !! k = Some (AwaitStream (abortController (self w)) resp h)) as Hk2.
  { subst k. by rewrite Hparked2', lookup_app_r, Nat.sub_diag. }
  assert (controllers w2 !! abortController (self w) = Some false) as Hsig.
  { by rewrite Hheap2, Hheap. }
  rewrite (chunksRead writes w2 k _ _ h (chatThread (self w1)) (chunkEntry stamp' false)
             Hk2 Hsig (eq_sym Hgen) eq_refl Hthread2).
  destruct (filledBy_written writes (chunkEntry stamp' false)) as (Hstamp & Huser' & Herr & Hlast).
  set (answer := foldl (λ t wr, written wr t) (chunkEntry stamp' false) writes) in *.
  cbn [step on_self suspended]. rewrite Hk2. cbn [settle self suspended].
  split_and!; try done.
  - by eexists.
  - exists user. eexists. split; [|split; [exact Huser|]].
    + rewrite Hthread2, Hthread. by rewrite <- app_assoc.
    + by split_and!.
  - exists user, answer. split_and!; try done.
    + unfold streamResolved.
      cbn [chatThread set_chatThoughts set_chatDataPoints set_canShowThoughtProcess
           set_isProcessingResponse set_chatThread].
      rewrite Hthread. by rewrite <- app_assoc.
    + unfold filledBy. destruct (last writes); [done|]. by rewrite Hlast.
  - cbn [on_self suspended]. rewrite Hparked2'. subst k.
    by rewrite app_nil_r, delete_last_parked.
Qed.

Lemma submit_fields stamp w :
  sanitize (questionInput (self w)) ≠ "" →
  let c' := self (step (Submit stamp) w) in
  questionInput c' = questionInput (self w)
  ∧ currentQuestion c' = sanitize (questionInput (self w))
  ∧ hasAPIError c' = false
  ∧ isChatStarted c' = true
  ∧ isDefaultPromptsEnabled c' = false
  ∧ abortController c' = abortController (self w)
  ∧ apiUrl c' = apiUrl (self w)
  ∧ overrides c' = overrides (self w).
Proof.
  intros Hq. cbn [step]. unfold handleUserChatSubmit.
  change (questionInput (collapseAside (self w))) with (questionInput (self w)).
  rewrite decide_False by done. cbn [self]. by destruct (decide _).
Qed.

Lemma catchClause_keeps e stamp c :
  let c' := catchClause e stamp c in
  questionInput c' = questionInput c
  ∧ currentQuestion c' = currentQuestion c
  ∧ isChatStarted c' = isChatStarted c
  ∧ isDefaultPromptsEnabled c' = isDefaultPromptsEnabled c
  ∧ interactionModel c' = interactionModel c
  ∧ useStream c' = useStream c.
Proof. unfold catchClause. by destruct (if isProcessingResponse c then _ else _). Qed.

(** X3.  A failed exchange can be retried as it is: after a submission
    whose transport call is rejected the input field still holds the
    question, is enabled again and nothing stays parked; a second click on
    submit then sends the same question once more, clears the API-error
    flag and shows the loading indicator again. *)
Theorem failed_exchange_can_be_retried w stamp e stamp' stamp'' :
  let q := sanitize (questionInput (self w)) in
  q ≠ "" →
  let k := length (suspended w) in
  let w2 := run [Submit stamp; TransportRejected k e stamp'] w in
  let w3 := step (Submit stamp'') w2 in
  questionInput (self w2) = questionInput (self w)
  ∧ hasAPIError (self w2) = true
  ∧ inputDisabled (render (self w2)) = false
  ∧ loadingIndicatorShown (render (self w2)) = false
  ∧ suspended w2 = suspended w
  ∧ (∃ call call', transport w3 = transport w ++ [call; call']
                   ∧ request_question call = q ∧ request_question call' = q)
  ∧ hasAPIError (self w3) = false
  ∧ loadingIndicatorShown (render (self w3)) = true.
Proof.
  intros q Hq k w2 w3. subst w3 w2. cbn [run foldl].
  set (w1 := step (Submit stamp) w).
  destruct (submit_dispatch stamp w Hq) as (_ & (call & Hcall & Hquestion & _) & Hparked & _).
  destruct (submit_fields stamp w Hq) as (Hinput & _).
  fold q w1 in Hcall, Hquestion, Hparked, Hinput.
  assert (suspended w1 !! k = Some (AwaitTransport (interactionModel (self w)) q)) as Hk.
  { subst k. by rewrite Hparked, lookup_app_r, Nat.sub_diag. }
  pose proof (step_rejects w1 k _ e stamp' Hk) as Hstep. cbn [rejects] in Hstep.
  rewrite Hstep. set (w2 := {| self := catchClause e stamp' (self w1) |}).
  destruct (catchClause_flags e stamp' (self w1)) as (Herr & Hdis & Hawait & _).
  destruct (catchClause_keeps e stamp' (self w1)) as (Hkeep & _).
  assert (sanitize (questionInput (self w2)) ≠ "") as Hq2.
  { subst w2. cbn [self]. by rewrite Hkeep, Hinput. }
  destruct (submit_dispatch stamp'' w2 Hq2)
    as (_ & (call' & Hcall' & Hquestion' & _) & _ & _ & _ & Hawait' & _).
  destruct (submit_fields stamp'' w2 Hq2) as (_ & _ & Herr' & _).
  split_and!.
  - subst w2. cbn [self]. by rewrite Hkeep.
  - done.
  - done.
  - unfold render. cbn [loadingIndicatorShown]. subst w2. cbn [self]. by rewrite Hawait.
  - subst w2. cbn [suspended]. subst k. by rewrite Hparked, delete_last_parked.
  - exists call, call'. rewrite Hcall'. subst w2. cbn [transport]. rewrite Hcall.
    split_and!; [by rewrite <- app_assoc|done|].
    rewrite Hquestion'. cbn [self]. by rewrite Hkeep, Hinput.
  - done.
  - unfold render. cbn [loadingIndicatorShown]. by rewrite Hawait', Herr'.
Qed.

(** X4.  The transport is called by a submission and by nothing else:
    every other event leaves the log of transport calls as it is, and a
    submission adds at most one call, whose question is the sanitized value
    of the input field. *)
Theorem transport_is_called_by_submit_only ev w :
  transport (step ev w) = transport w
  ∨ ∃ stamp call,
      ev = Submit stamp
      ∧ transport (step ev w) = transport w ++ [call]
      ∧ request_question call = sanitize (questionInput (self w))
      ∧ request_question call ≠ "".
Proof.
  assert ((∃ stamp, ev = Submit stamp) ∨ ∀ stamp, ev ≠ Submit stamp) as [[stamp ->]|Hev].
  { destruct ev; first [by right|left; by eexists]. }
  - destruct (decide (sanitize (questionInput (self w)) = "")) as [Hq|Hq].
    + left. by rewrite (submit_empty _ _ Hq).
    + right. destruct (submit_dispatch stamp w Hq) as (_ & (call & Hcall & Hquestion & _) & _).
      exists stamp, call. split_and!; [done|done|done|by rewrite Hquestion].
  - left. by apply step_keeps_transport.
Qed.

(** X5.  The request of a submission: the mode, the url and the stream
    option are the component's attributes, and the overrides are the
    configured defaults with every key that the host set replaced by the
    host's value. *)
Theorem request_overrides_prefer_the_host stamp w :
  sanitize (questionInput (self w)) ≠ "" →
  ∃ call,
    last (transport (step (Submit stamp) w)) = Some call
    ∧ request_type call = interactionModel (self w)
    ∧ http_url call = apiUrl (self w)
    ∧ http_stream call = useStream (self w)
    ∧ ∀ key, request_overrides call !! key =
             match overrides (self w) !! key with
             | Some v => Some v
             | None => requestOptions_overrides !! key
             end.
Proof.
  intros Hq. cbn [step]. unfold handleUserChatSubmit.
  change (questionInput (collapseAside (self w))) with (questionInput (self w)).
  rewrite decide_False by done. cbn [transport]. rewrite last_snoc.
  eexists. split; [done|]. unfold transportCall. cbn [request_type http_url http_stream
    request_overrides].
  split_and!; [reflexivity|by destruct (decide _)..|].
  intros key. rewrite lookup_union.
  replace (overrides _) with (overrides (self w)) by (by destruct (decide _)).
  destruct (overrides (self w) !! key); [|by rewrite (left_id_L None _)].
  by destruct (requestOptions_overrides !! key).
Qed.

(** X6.  What the copy button offers after a failure: when the error was
    recorded on a new turn there is no text to copy ([undefined] goes to the
    clipboard); when it was recorded on the open turn, the text of that
    turn is still offered. *)
Theorem copy_after_failure w k p e stamp :
  suspended w !! k = Some p →
  let w' := step (rejects k e stamp p) w in
  match openTurn (self w) with
  | None => responseToCopy (self w') = None
  | Some _ => responseToCopy (self w') = responseToCopy (self w)
  end.
Proof.
  intros Hk w'. subst w'. rewrite (step_rejects _ _ _ _ _ Hk). cbn [self].
  destruct (catchClause_records e stamp (self w)) as [Hturn Hnew].
  pose proof (openTurn_spec (self w)) as Hopen. unfold responseToCopy.
  destruct (openTurn (self w)) as [o|].
  - destruct Hopen as (Hp & Hne & _).
    destruct (Hturn Hp Hne) as (Hlen & (t & t' & Ht & Ht' & _ & Htext & _) & _).
    rewrite !last_lookup, Hlen, Ht, Ht'. simpl. by rewrite Htext.
  - destruct (Hnew Hopen) as (t' & -> & _ & Htext & _).
    rewrite last_snoc. simpl. by rewrite Htext.
Qed.

(** X7.  Once the input has been cleared, by the reset-input button or by
    the arrival of a response, a click on submit does nothing, provided the
    sanitizer maps the empty string to itself: no turn is added, the
    transport is not called and nothing is parked. *)
Theorem submit_after_clearing_is_a_no_op w ev stamp :
  sanitize "" = "" →
  (ev = ResetInputField
   ∨ ∃ k type q resp stamp',
       suspended w !! k = Some (AwaitTransport type q)
       ∧ ev = TransportResolved k resp stamp') →
  let w1 := step ev w in
  let w2 := step (Submit stamp) w1 in
  questionInput (self w1) = ""
  ∧ chatThread (self w2) = chatThread (self w1)
  ∧ transport w2 = transport w1
  ∧ suspended w2 = suspended w1.
Proof.
  intros Hempty Hev w1 w2.
  assert (questionInput (self w1) = "") as Hinput.
  { subst w1. destruct Hev as [->|(k & type & q & resp & stamp' & Hk & ->)]; [done|].
    by destruct (transportResolved_fields w k type q resp stamp' Hk) as (-> & _). }
  split; [done|]. subst w2. rewrite submit_empty by (by rewrite Hinput). done.
Qed.

End Exchanges.

(** ** Invariants of the controller *)

Section Invariants.
Context `{Collaborators} `{GlobalConfig}.

Lemma elem_of_delete_other {A} (l : list A) k x y :
  l !! k = Some y → x ≠ y → x ∈ l → x ∈ delete k l.
Proof.
  intros Hk Hne [i Hi]%list_elem_of_lookup. apply list_elem_of_lookup.
  destruct (decide (i < k)) as [Hlt|Hge].
  - exists i. by rewrite list_lookup_delete_lt.
  - assert (i ≠ k) by (intros ->; congruence).
    exists (pred i). rewrite list_lookup_delete_ge by lia.
    by replace (S (pred i)) with i by lia.
Qed.

Lemma transportPending_delete w w' k sig r h :
  suspended w !! k = Some (AwaitStream sig r h) →
  suspended w' = delete k (suspended w) →
  transportPending w → transportPending w'.
Proof.
  intros Hk Hw' (type & q & Hin). exists type, q. rewrite Hw'.
  by eapply elem_of_delete_other.
Qed.

Lemma streamBeingRead_delete w w' k type q :
  suspended w !! k = Some (AwaitTransport type q) →
  suspended w' = delete k (suspended w) →
  streamBeingRead w → streamBeingRead w'.
Proof.
  intros Hk Hw' (sig & r & h & Hin). exists sig, r, h. rewrite Hw'.
  by eapply elem_of_delete_other.
Qed.

Lemma neverStuck_idle w' :
  isAwaitingResponse (self w') = false →
  isDisabled (self w') = false →
  isProcessingResponse (self w') = false →
  neverStuck w'.
Proof. intros Ha Hd Hp. unfold neverStuck. rewrite Ha, Hd, Hp. by split_and!. Qed.

Lemma neverStuck_step ev w : neverStuck w → neverStuck (step ev w).
Proof.
  intros Hw. destruct ev; cbn [step]; try exact Hw.
  - (* Submit *)
    destruct (decide (sanitize (questionInput (self w)) = "")) as [Hq|Hq].
    + pose proof (submit_empty stamp w Hq) as E. cbn [step] in E. rewrite E. exact Hw.
    + destruct (submit_dispatch stamp w Hq)
        as (_ & _ & Hparked & _ & _ & _ & Hproc & _).
      cbn [step] in Hparked, Hproc.
      assert (transportPending (handleUserChatSubmit stamp w)) as Hpending.
      { do 2 eexists. rewrite Hparked. apply elem_of_app. right. by left. }
      split_and!; [done|done|]. rewrite Hproc. intros Hp.
      destruct Hw as (_ & _ & Hs). destruct (Hs Hp) as (sig & r & h & Hin).
      exists sig, r, h. rewrite Hparked. apply elem_of_app. by left.
  - (* Cancel *)
    destruct Hw as (Ha & Hd & _). by split_and!.
  - (* Reset *)
    destruct Hw as (Ha & _ & _). by split_and!.
  - unfold showDefaultPrompts. destruct (isDefaultPromptsEnabled _); [exact Hw|].
    destruct Hw as (Ha & _ & _). by split_and!.
  - (* TransportResolved *)
    destruct (suspended w !! k) as [[type q|]|] eqn:Hk; try exact Hw.
    pose proof (transportResolved_fields w k type q resp stamp Hk) as (_ & _ & Ha & Hd & _).
    cbn [step] in Ha, Hd. rewrite Hk in Ha, Hd.
    split_and!; [by rewrite Ha|by rewrite Hd|].
    destruct (useStream (self w)) eqn:Hs.
    + pose proof (streamStart w k type q resp stamp Hk Hs) as (Hparked & _).
      cbn [step] in Hparked. rewrite Hk in Hparked. intros _.
      do 3 eexists. rewrite Hparked. apply elem_of_app. right. by left.
    + destruct (firstMessage resp) as [m|] eqn:Hm.
      * pose proof (fullResponse w k type q resp m stamp Hk Hs Hm) as (_ & Hparked & _).
        pose proof (fullResponse_thoughts w k type q resp m stamp Hk Hs Hm)
          as (_ & _ & _ & Hproc & _).
        cbn [step] in Hparked, Hproc. rewrite Hk in Hparked, Hproc.
        rewrite Hproc. intros Hp. destruct Hw as (_ & _ & Hstream).
        by eapply streamBeingRead_delete, Hstream.
      * destruct (step_malformed_response w k type q resp stamp Hk Hs Hm)
          as (c1 & _ & _ & Hstep).
        cbn [step] in Hstep. rewrite Hk in Hstep. rewrite Hstep. cbn [self].
        by destruct (catchClause_flags TypeError stamp c1) as (_ & _ & _ & ->).
  - (* TransportRejected *)
    destruct (suspended w !! k) as [[type q|]|] eqn:Hk; try exact Hw.
    destruct (catchClause_flags e stamp (self w)) as (_ & Hd & Ha & Hp).
    by eapply neverStuck_idle.
  - (* ChunkRead *)
    destruct (suspended w !! k) as [[|sig r h]|] eqn:Hk; try exact Hw.
    destruct (decide _); [exact Hw|]. unfold on_self.
    destruct (parserWrites_frame h wr (self w)) as [l ->]. exact Hw.
  - (* CancelObserved *)
    destruct (suspended w !! k) as [[|sig r h]|] eqn:Hk; try exact Hw.
    destruct Hw as (Ha & Hd & _). by split_and!.
  - (* StreamResolved *)
    destruct (suspended w !! k) as [[|sig r h]|] eqn:Hk; try exact Hw.
    destruct Hw as (Ha & Hd & _).
    split_and!; [| |done]; intros Hflag;
      (eapply (transportPending_delete w);
       [exact Hk|cbn [settle suspended option_list]; apply app_nil_r|auto]).
  - (* StreamRejected *)
    destruct (suspended w !! k) as [[|sig r h]|] eqn:Hk; try exact Hw.
    destruct (catchClause_flags e stamp (self w)) as (_ & Hd & Ha & Hp).
    by eapply neverStuck_idle.
Qed.

(** X8.  The controls are never left blocked: in every state the
    component can reach, the awaiting-response and disabled flags are set
    only while a transport call is pending and the processing-response flag
    only while a stream is being read.  So with nothing parked the input is
    enabled, the enabled submit button is rendered and the loading
    indicator is not shown. *)
Theorem controls_are_never_stuck evs model url stream ovr :
  let w := run evs (connect model url stream ovr) in
  neverStuck w
  ∧ (suspended w = [] →
     inputDisabled (render (self w)) = false
     ∧ chatOrCancelButton (render (self w)) = SubmitChatButton false
     ∧ loadingIndicatorShown (render (self w)) = false).
Proof.
  intros w.
  assert (neverStuck w) as Hw.
  { subst w. assert (neverStuck (connect model url stream ovr)) as Hinit
      by (by apply neverStuck_idle).
    revert Hinit. generalize (connect model url stream ovr).
    induction evs as [|ev evs IH]; intros w0 Hw0; [done|].
    apply IH. by apply neverStuck_step. }
  split; [done|]. intros Hidle. destruct Hw as (Ha & Hd & Hp).
  assert (¬ transportPending w) as Hnt.
  { intros (type & q & Hin). rewrite Hidle in Hin. by apply elem_of_nil in Hin. }
  assert (¬ streamBeingRead w) as Hns.
  { intros (sig & r & h & Hin). rewrite Hidle in Hin. by apply elem_of_nil in Hin. }
  unfold render, renderChatOrCancelButton.
  cbn [inputDisabled chatOrCancelButton loadingIndicatorShown].
  destruct (isAwaitingResponse (self w)); [by destruct Hnt; auto|].
  destruct (isDisabled (self w)); [by destruct Hnt; auto|].
  destruct (isProcessingResponse (self w)); [by destruct Hns; auto|]. done.
Qed.

Lemma afterTransport_keeps resp stamp c :
  match afterTransport resp stamp c with
  | Normal c' _ | Abrupt _ c' =>
      isChatStarted c' = isChatStarted c
      ∧ isDefaultPromptsEnabled c' = isDefaultPromptsEnabled c
  end.
Proof.
  unfold afterTransport, processApiResponse, updateChatWithMessageOrChunk.
  cbn [useStream set_isResetInput set_isDisabled set_isAwaitingResponse
       set_questionInput set_questionInput_value set_apiResponse set_chatThoughts set_chatDataPoints
       set_canShowThoughtProcess].
  destruct (useStream c); [done|]. by destruct (firstMessage resp).
Qed.

Lemma settle_keeps k r stamp w :
  match r with
  | Normal c' _ | Abrupt _ c' =>
      isChatStarted c' = isChatStarted (self w)
      ∧ isDefaultPromptsEnabled c' = isDefaultPromptsEnabled (self w)
  end →
  isChatStarted (self (settle k r stamp w)) = isChatStarted (self w)
  ∧ isDefaultPromptsEnabled (self (settle k r stamp w))
    = isDefaultPromptsEnabled (self w).
Proof.
  destruct r as [c' next|e c']; cbn [settle self]; [done|]. intros [<- <-].
  by destruct (catchClause_keeps e stamp c') as (_ & _ & -> & -> & _).
Qed.

Lemma promptsExclusive_step ev w :
  isChatStarted (self w) && isDefaultPromptsEnabled (self w) = false →
  isChatStarted (self (step ev w)) && isDefaultPromptsEnabled (self (step ev w)) = false.
Proof.
  intros Hw. destruct ev; cbn [step]; try exact Hw; try reflexivity.
  - destruct (decide (sanitize (questionInput (self w)) = "")) as [Hq|Hq].
    + pose proof (submit_empty stamp w Hq) as E. cbn [step] in E. rewrite E. exact Hw.
    + destruct (submit_fields stamp w Hq) as (_ & _ & _ & _ & Hprompts & _).
      cbn [step] in Hprompts. rewrite Hprompts. apply andb_false_r.
  - unfold showDefaultPrompts.
    destruct (isDefaultPromptsEnabled (self w)) eqn:Hp; [|reflexivity].
    by rewrite Hp.
  - destruct (suspended w !! k) as [[]|]; try exact Hw.
    destruct (settle_keeps k (afterTransport resp stamp (self w)) stamp w) as [-> ->];
      [apply afterTransport_keeps|exact Hw].
  - destruct (suspended w !! k) as [[]|]; try exact Hw.
    by destruct (settle_keeps k (Abrupt e (self w)) stamp w) as [-> ->].
  - destruct (suspended w !! k) as [[|sig r h]|]; try exact Hw.
    destruct (decide _); [exact Hw|]. unfold on_self.
    destruct (parserWrites_frame h wr (self w)) as [l ->]. exact Hw.
  - by destruct (suspended w !! k) as [[]|].
  - by destruct (suspended w !! k) as [[]|].
  - destruct (suspended w !! k) as [[]|]; try exact Hw.
    by destruct (settle_keeps k (Abrupt e (self w)) stamp w) as [-> ->].
Qed.

(** X9.  In every state the component can reach, the chat list and the
    teaser list of default prompts are never rendered together: a started
    chat has its default prompts switched off, and the button that brings
    them back is rendered instead. *)
Theorem chat_and_teasers_are_exclusive evs model url stream ovr :
  let w := run evs (connect model url stream ovr) in
  ¬ (chatListShown (render (self w)) = true ∧ teaserListShown (render (self w)) = true)
  ∧ (chatListShown (render (self w)) = true →
     defaultsButtonShown (render (self w)) = true).
Proof.
  intros w.
  assert (isChatStarted (self w) && isDefaultPromptsEnabled (self w) = false) as Hw.
  { subst w. assert (isChatStarted (self (connect model url stream ovr))
                     && isDefaultPromptsEnabled (self (connect model url stream ovr))
                     = false) as Hinit by done.
    revert Hinit. generalize (connect model url stream ovr).
    induction evs as [|ev evs IH]; intros w0 Hw0; [done|].
    apply IH. by apply promptsExclusive_step. }
  unfold render. cbn [chatListShown teaserListShown defaultsButtonShown].
  destruct (isChatStarted (self w)), (isDefaultPromptsEnabled (self w));
    simpl in Hw; split; try done; by intros [? ?].
Qed.

(** *** The thread only grows *)

(** X10.  In every state the component can reach, whatever happens next,
    the thread is either emptied or grows by at most one turn, and a turn
    that is in the thread keeps its position, its timestamp and its author.
    Its text, citations and follow-up questions change only when a parser
    whose signal is not aborted writes into the entry that it fills, which
    is an assistant turn; apart from that the only thing that changes on a
    turn is that an error is recorded on it.  Only the reset (also through
    the button that brings the default prompts back) empties a thread. *)
Theorem thread_only_grows evs model url stream ovr ev :
  let w := run evs (connect model url stream ovr) in
  threadEvolves (parserTarget ev w) (chatThread (self w)) (chatThread (self (step ev w)))
  ∧ (chatThread (self w) ≠ [] → chatThread (self (step ev w)) = [] →
     ev = Reset ∨ ev = ShowDefaultPrompts)
  ∧ (∀ i, parserTarget ev w = Some i →
       ∃ t, chatThread (self w) !! i = Some t ∧ isUserMessage t = false).
Proof.
  intros w. split_and!.
  - destruct (step_thread ev w) as [(Hnil & _)|[_ Hkept]]; [by left|by right].
  - intros Hne Hnil. destruct (step_thread ev w) as [(_ & _ & Hev)|[_ [Hlen _]]]; [done|].
    rewrite Hnil in Hlen. simpl in Hlen. destruct (chatThread (self w)); [done|].
    simpl in Hlen. lia.
  - intros i Htarget.
    pose proof (parsersFillAssistantTurns_reachable evs model url stream ovr) as Hfill.
    fold w in Hfill. unfold parserTarget in Htarget.
    destruct ev; try done.
    destruct (suspended w !! k) as [[|sig r h]|] eqn:Hk; try done.
    destruct (decide _); [done|]. destruct (decide _) as [Hgen|]; [|done].
    injection Htarget as <-.
    destruct (Hfill sig r h (list_elem_of_lookup_2 _ _ _ Hk)) as [_ Ht]. by apply Ht.
Qed.

(** X11.  The button that brings the default prompts back: afterwards the
    teaser list is rendered; when it already was, nothing changes (the
    thread is kept), otherwise the click is a full reset; and a second
    click changes nothing. *)
Theorem show_default_prompts_resets_once w :
  let w' := step ShowDefaultPrompts w in
  teaserListShown (render (self w')) = true
  ∧ (teaserListShown (render (self w)) = true → w' = w)
  ∧ (teaserListShown (render (self w)) = false → w' = step Reset w)
  ∧ step ShowDefaultPrompts w' = w'.
Proof.
  intros w'. subst w'. cbn [step]. unfold showDefaultPrompts, render.
  cbn [teaserListShown].
  destruct (isDefaultPromptsEnabled (self w)) eqn:Hp.
  - rewrite Hp. by split_and!.
  - by split_and!.
Qed.

(** *** Repeated objects in the citation list *)

Lemma setSpreadFrom_seen seen ys :
  (∀ y, y ∈ ys → Citation.oid y ∈ seen) → setSpreadFrom seen ys = [].
Proof.
  induction ys as [|y ys IH]; intros Hys; simpl; [done|].
  rewrite decide_True by (apply Hys; by left). apply IH. intros z Hz. apply Hys. by right.
Qed.

Lemma setSpreadFrom_repeat seen xs ys :
  (∀ y, y ∈ ys → Citation.oid y ∈ seen ∨ Citation.oid y ∈ Citation.oid <$> xs) →
  setSpreadFrom seen (xs ++ ys) = setSpreadFrom seen xs.
Proof.
  revert seen. induction xs as [|x xs IH]; intros seen Hys; simpl.
  - apply setSpreadFrom_seen. intros y Hy.
    destruct (Hys y Hy) as [?|Hin]; [done|]. by apply elem_of_nil in Hin.
  - destruct (decide _) as [Hx|Hx].
    + apply IH. intros y Hy. destruct (Hys y Hy) as [?|Hin]; [by left|].
      rewrite fmap_cons in Hin. apply elem_of_cons in Hin as [->|?]; auto.
    + f_equal. apply IH. intros y Hy. destruct (Hys y Hy) as [?|Hin].
      * left. by right.
      * rewrite fmap_cons in Hin. apply elem_of_cons in Hin as [->|?]; [|by right].
        left. by left.
Qed.

(** X12.  Attaching citations does not depend on how often an object was
    pushed: a list followed by objects it already holds, for instance the
    whole list pushed a second time, attaches what the list alone
    attaches, and an attached list attached again stays as it is. *)
Theorem repeated_citations_are_attached_once cits again steps fups stamp isUser part c :
  (∀ y, y ∈ again → Citation.oid y ∈ Citation.oid <$> cits) →
  (updateChatWithMessageOrChunk (cits ++ again) steps fups stamp isUser part false c).1
    = (updateChatWithMessageOrChunk cits steps fups stamp isUser part false c).1
  ∧ setSpread (cits ++ cits) = setSpread cits
  ∧ setSpread (setSpread cits) = setSpread cits.
Proof.
  intros Hagain. split_and!.
  - unfold updateChatWithMessageOrChunk, messageEntry, setSpread. cbn [fst].
    rewrite setSpreadFrom_repeat; [done|]. intros y Hy. right. by apply Hagain.
  - unfold setSpread. apply setSpreadFrom_repeat. intros y Hy. right.
    by apply list_elem_of_fmap_2.
  - unfold setSpread at 1. apply setSpreadFrom_distinct.
    + apply setSpreadFrom_NoDup.
    + intros x _. apply not_elem_of_nil.
Qed.

End Invariants.

(** ** The aside *)

Section AsideProperties.
Context `{Collaborators} `{GlobalConfig}.

Lemma endsWith_spec s suffix :
  endsWith s suffix = true ↔ ∃ pre, s = pre +:+ suffix.
Proof.
  induction s as [|a s IH]; simpl.
  - destruct (decide _) as [<-|Hne].
    + split; [|done]. intros _. by exists "".
    + split; [done|]. intros [pre Hpre]. destruct pre; [|done]. by destruct Hne.
  - destruct (decide _) as [<-|Hne].
    + split; [|done]. intros _. by exists "".
    + rewrite IH. split.
      * intros [pre ->]. by exists (String a pre).
      * intros [pre Hpre]. destruct pre as [|b pre]; [by destruct Hne|].
        injection Hpre as -> ->. by exists pre.
Qed.

Lemma aside_step_selected act a c :
  Aside.selectedCitation (Aside.step act a) = Some c →
  Aside.selectedCitation a = Some c
  ∨ (act = Aside.CitationClick c ∧ endsWith (Citation.text c) ".md" = true).
Proof.
  destruct act as [citation|ev]; cbn [Aside.step].
  - unfold Aside.handleCitationClick.
    destruct (endsWith (Citation.text citation) ".md") eqn:Hmd; [|by left].
    destruct (isShowingThoughtProcess _); cbn; intros [= <-]; by right.
  - destruct ev; by left.
Qed.

(** X13.  The citation selected for the preview is always a markdown
    document: in every state the aside can reach, the selected citation, if
    there is one, has a text that ends in ".md", and the url that the
    citations tab previews is the api url, "/content/" and that text.  A
    click on any other citation selects nothing and lets the link open. *)
Theorem only_markdown_citations_are_previewed acts model url stream ovr citation :
  let a := Aside.run acts (Aside.connect model url stream ovr) in
  (∀ c, Aside.selectedCitation a = Some c →
        (∃ name, Citation.text c = name +:+ ".md")
        ∧ Aside.previewUrl a
          = Some (apiUrl (self (Aside.world a)) +:+ "/content/" +:+ Citation.text c))
  ∧ ((∀ name, Citation.text citation ≠ name +:+ ".md") →
     Aside.handleCitationClick citation a = (a, false)).
Proof.
  intros a. split.
  - intros c Hc. split; [|unfold Aside.previewUrl; by rewrite Hc].
    apply endsWith_spec. revert c Hc. subst a.
    assert (∀ c, Aside.selectedCitation (Aside.connect model url stream ovr) = Some c →
                 endsWith (Citation.text c) ".md" = true) as Hinit by done.
    revert Hinit. generalize (Aside.connect model url stream ovr).
    induction acts as [|act acts IH]; intros a0 Ha0; [done|].
    cbn [Aside.run foldl]. apply IH. intros c Hc.
    destruct (aside_step_selected act a0 c Hc) as [?|[_ ?]]; auto.
  - intros Hmd. unfold Aside.handleCitationClick.
    destruct (endsWith (Citation.text citation) ".md") eqn:E; [|done].
    apply endsWith_spec in E as [name E]. by destruct (Hmd name).
Qed.

(** X14.  A click on a markdown citation keeps the link from opening,
    selects the citation and leaves the aside open.  The aside comes up on
    the citations tab when it was closed; when it was already open the tab
    is left where it is.  Nothing else of the component changes. *)
Theorem markdown_citation_click_opens_the_aside citation a name :
  Citation.text citation = name +:+ ".md" →
  let r := Aside.handleCitationClick citation a in
  r.2 = true
  ∧ Aside.selectedCitation r.1 = Some citation
  ∧ asideShown (render (self (Aside.world r.1))) = true
  ∧ Aside.selectedAsideTab r.1 =
      (if asideShown (render (self (Aside.world a)))
       then Aside.selectedAsideTab a else Aside.TabCitations)
  ∧ chatThread (self (Aside.world r.1)) = chatThread (self (Aside.world a))
  ∧ transport (Aside.world r.1) = transport (Aside.world a)
  ∧ suspended (Aside.world r.1) = suspended (Aside.world a).
Proof.
  intros Htext r. subst r. unfold Aside.handleCitationClick, render.
  cbn [asideShown].
  assert (endsWith (Citation.text citation) ".md" = true) as ->
    by (apply endsWith_spec; eauto).
  cbn [Aside.world Aside.set_selectedCitation].
  by destruct (isShowingThoughtProcess (self (Aside.world a))) eqn:Hs.
Qed.

End AsideProperties.

(** ** The voice input button *)

Section VoiceProperties.

Import VoiceInputButton.

Lemma no_double_start_snoc (l : list Call) c :
  (∀ before after, l ≠ before ++ [Start; Start] ++ after) →
  (c = Start → last l ≠ Some Start) →
  ∀ before after, l ++ [c] ≠ before ++ [Start; Start] ++ after.
Proof.
  intros Hl Hc before after Heq.
  destruct after as [|x after _] using rev_ind.
  - change (before ++ [Start; Start] ++ []) with (before ++ [Start; Start]) in Heq.
    replace (before ++ [Start; Start]) with ((before ++ [Start]) ++ [Start]) in Heq
      by (by rewrite <- app_assoc).
    apply app_inj_tail in Heq as [-> ->]. apply Hc; [done|]. by rewrite last_snoc.
  - replace (before ++ [Start; Start] ++ after ++ [x])
      with ((before ++ [Start; Start] ++ after) ++ [x]) in Heq
      by (by rewrite <- !app_assoc).
    apply app_inj_tail in Heq as [-> _]. by eapply Hl.
Qed.

Lemma voiceConsistent_step ev b :
  voiceConsistent b → voiceConsistent (VoiceInputButton.step ev b).
Proof.
  destruct b as [sup en [[c l cs]|]]; unfold voiceConsistent;
    destruct ev; cbn; try done.
  - intros (-> & -> & -> & Hidle & Hstarts). destruct en; cbn.
    + split_and!; try done.
      * intros _. rewrite last_snoc. by intros [=].
      * by apply no_double_start_snoc.
    + split_and!; try done. apply no_double_start_snoc; [done|]. intros _. by apply Hidle.
  - intros (-> & -> & -> & Hidle & Hstarts). split_and!; try done.
    + intros _. rewrite last_snoc. by intros [=].
    + by apply no_double_start_snoc.
  - intros ->. unfold handleVoiceInput, initializeSpeechRecognition. cbn.
    destruct sup; cbn; [|done]. split_and!; try done.
    intros [|x [|y before]] after; by intros [=].
Qed.

Lemma voiceConsistent_run evs supported :
  voiceConsistent (VoiceInputButton.run evs (VoiceInputButton.connect supported)).
Proof.
  assert (voiceConsistent (VoiceInputButton.connect supported)) as Hinit by done.
  revert Hinit. generalize (VoiceInputButton.connect supported).
  induction evs as [|ev evs IH]; intros b Hb; [done|].
  apply IH. by apply voiceConsistent_step.
Qed.

(** X15.  Whatever sequence of clicks and recognition events the button
    sees, the recognition object, once created, is continuous and set to
    "en-US"; [start()] is never called twice without a [stop()] in
    between; and while the button shows its idle state the latest call on
    the object, if any, was [stop()]. *)
Theorem voice_recognition_is_never_started_twice evs supported :
  let b := VoiceInputButton.run evs (VoiceInputButton.connect supported) in
  ∀ r, speechRecognition b = Some r →
       continuous r = true
       ∧ lang r = "en-US"
       ∧ (∀ before after, calls r ≠ before ++ [Start; Start] ++ after)
       ∧ (VoiceInputButton.render b = Some false → last (calls r) ≠ Some Start).
Proof.
  intros b r Hr. pose proof (voiceConsistent_run evs supported) as Hb. fold b in Hb.
  unfold voiceConsistent in Hb. rewrite Hr in Hb.
  destruct Hb as (Hc & Hl & Hs & Hidle & Hstarts).
  split_and!; try done. unfold VoiceInputButton.render. rewrite Hs.
  intros [= Hen]. by apply Hidle.
Qed.

(** X16.  In a browser without speech recognition the button is inert:
    whatever happens, it stays in its initial state, renders nothing and no
    recognition object is ever created. *)
Theorem voice_button_without_support_is_inert evs :
  let b := VoiceInputButton.run evs (VoiceInputButton.connect false) in
  b = VoiceInputButton.connect false
  ∧ VoiceInputButton.render b = None
  ∧ speechRecognition b = None.
Proof.
  intros b. assert (b = VoiceInputButton.connect false) as ->; [|done]. subst b.
  induction evs as [|ev evs IH] using rev_ind; [done|].
  unfold VoiceInputButton.run in *. rewrite foldl_app. cbn [foldl]. rewrite IH.
  by destruct ev.
Qed.

(** X17.  With speech recognition available the button is a toggle: the
    first click creates the recognition, configures it and calls
    [start()]; from then on every click flips the recording state, calling
    [start()] when it switches to recording and [stop()] when it switches
    back, so two clicks restore the state of the button. *)
Theorem voice_button_toggles b r :
  speechRecognition b = Some r →
  let first := VoiceInputButton.step Click (VoiceInputButton.connect true) in
  let b1 := VoiceInputButton.step Click b in
  let b2 := VoiceInputButton.step Click b1 in
  speechRecognition first
    = Some {| continuous := true; lang := "en-US"; calls := [Start] |}
  ∧ VoiceInputButton.render first = Some true
  ∧ enableVoiceListening b1 = negb (enableVoiceListening b)
  ∧ (calls <$> speechRecognition b1)
    = Some (calls r ++ [if enableVoiceListening b then Stop else Start])
  ∧ enableVoiceListening b2 = enableVoiceListening b
  ∧ (calls <$> speechRecognition b2)
    = Some (calls r ++ (if enableVoiceListening b then [Stop; Start] else [Start; Stop])).
Proof.
  intros Hr first b1 b2. split; [done|]. split; [done|]. subst b2 b1.
  destruct b as [sup en rec]. cbn in Hr. subst rec.
  destruct r as [c l cs]. cbn [VoiceInputButton.step]. unfold handleVoiceInput. cbn.
  destruct en; cbn; by rewrite <- app_assoc.
Qed.

(** X18.  A recognition error makes the button call [stop()] but leaves it
    in its recording state: the next click only puts the button back to
    idle, calling [stop()] once more, and it takes a further click to call
    [start()] again. *)
Theorem voice_error_needs_two_clicks_to_resume b r :
  speechRecognition b = Some r →
  enableVoiceListening b = true →
  let b1 := VoiceInputButton.step RecognitionError b in
  let b2 := VoiceInputButton.step Click b1 in
  let b3 := VoiceInputButton.step Click b2 in
  enableVoiceListening b1 = true
  ∧ (calls <$> speechRecognition b1) = Some (calls r ++ [Stop])
  ∧ enableVoiceListening b2 = false
  ∧ (calls <$> speechRecognition b2) = Some (calls r ++ [Stop; Stop])
  ∧ enableVoiceListening b3 = true
  ∧ (calls <$> speechRecognition b3) = Some (calls r ++ [Stop; Stop; Start]).
Proof.
  intros Hr He. destruct b as [sup en rec]. cbn in Hr, He. subst rec en.
  destruct r as [c l cs]. cbn. by rewrite <- !app_assoc.
Qed.

Lemma string_app_assoc (a b c : string) : (a +:+ b) +:+ c = a +:+ b +:+ c.
Proof.
  induction a as [|x a IH]; [done|].
  change (String x ((a +:+ b) +:+ c) = String x (a +:+ b +:+ c)). by rewrite IH.
Qed.

Lemma onresult_app rs1 rs2 :
  onresult (rs1 ++ rs2) =
  input1 ← onresult rs1; input2 ← onresult rs2; Some (input1 +:+ input2).
Proof.
  induction rs1 as [|r rs1 IH]; simpl.
  - by destruct (onresult rs2).
  - destruct (head r) as [t|]; [|done]. simpl. rewrite IH.
    destruct (onresult rs1) as [i1|]; [|done]. simpl.
    destruct (onresult rs2) as [i2|]; [|done]. simpl.
    by rewrite string_app_assoc.
Qed.

End VoiceProperties.

Section Dictation.
Context `{Collaborators}.

(** X19.  Dictation reaches the chat input sanitized and as a whole: the
    input of an [on-voice-input] event is the concatenation of the first
    transcripts of all results, it is dispatched only when every result has
    an alternative, and the chat component hands its sanitized form to the
    input field, which keeps it without its line breaks; the current
    question is what the field has kept, and both replace what an earlier
    event had put there. *)
Theorem dictation_replaces_the_question results more input c :
  VoiceInputButton.onresult results = Some input →
  (Forall (λ result, result ≠ []) results
   ∧ input = foldr (λ result acc, default "" (head result) +:+ acc) "" results)
  ∧ questionInput (handleVoiceInput (Some input) c) = stripNewlines (sanitize input)
  ∧ currentQuestion (handleVoiceInput (Some input) c) = stripNewlines (sanitize input)
  ∧ (∀ input', VoiceInputButton.onresult (results ++ more) = Some input' →
       (∃ rest, input' = input +:+ rest)
       ∧ handleVoiceInput (Some input') (handleVoiceInput (Some input) c)
         = handleVoiceInput (Some input') c).
Proof.
  intros Hin. split; [|split_and!; try done].
  - revert input Hin. induction results as [|r rs IH]; intros input; simpl.
    + by intros [= <-].
    + destruct (head r) as [t|] eqn:Hr; [|done]. simpl.
      destruct (VoiceInputButton.onresult rs) as [i|]; [|done]. simpl. intros [= <-].
      destruct (IH i eq_refl) as [Hall ->]. split; [|done].
      constructor; [by destruct r|done].
  - intros input' Hin'. rewrite onresult_app, Hin in Hin'. simpl in Hin'.
    destruct (VoiceInputButton.onresult more) as [rest|]; [|done]. injection Hin' as <-.
    split; [by eexists|done].
Qed.

End Dictation.

(** ** Late settlements *)

Section LateSettlements.
Context `{Collaborators} `{GlobalConfig}.

(** X20.  A response that arrives after a reset is not dropped: the
    non-streamed assistant turn is appended to the emptied thread, which
    then holds that turn only (the extractor's text with its steps, its
    follow-up questions and its merged citations, under the time of the
    response and without an error), while the chat list stays hidden and the
    teaser list stays shown until the next submission. *)
Theorem response_after_reset_is_still_appended w k type q resp m stamp :
  suspended w !! k = Some (AwaitTransport type q) →
  useStream (self w) = false →
  firstMessage resp = Some m →
  let w' := run [Reset; TransportResolved k resp stamp] w in
  let processedText := processText (Bot.content m) in
  (∃ answer,
     chatThread (self w') = [answer]
     ∧ turnHas answer
         [ {| value := replacedText processedText;
              followingSteps := arrays1 processedText |} ]
         (Some (arrays2 processedText))
         (Some (setSpread (arrays0 processedText)))
         stamp false None)
  ∧ chatListShown (render (self w')) = false
  ∧ teaserListShown (render (self w')) = true
  ∧ suspended w' = delete k (suspended w).
Proof.
  intros Hk Hs Hm w' processedText. subst w'. cbn [run foldl].
  set (w1 := step Reset w).
  assert (suspended w1 !! k = Some (AwaitTransport type q)) as Hk1 by exact Hk.
  assert (useStream (self w1) = false) as Hs1 by exact Hs.
  destruct (fullResponse w1 k type q resp m stamp Hk1 Hs1 Hm) as (Hthread & Hparked & _).
  destruct (settle_keeps k (afterTransport resp stamp (self w1)) stamp w1) as [Hst Hpr];
    [apply afterTransport_keeps|].
  cbn [step]. cbn [step] in Hthread, Hparked. rewrite Hk1 in Hthread, Hparked |- *.
  split_and!; [|..|done].
  - eexists. split; [exact Hthread|]. by split_and!.
  - unfold render. cbn [chatListShown]. by rewrite Hst.
  - unfold render. cbn [teaserListShown]. by rewrite Hpr.
Qed.

(** X21.  After a cancel, a failure of the cancelled stream is not
    recorded on the turn that was being filled: every turn of the thread is
    left as it is and a separate turn is appended, which carries the error
    message that the code of the failure selects and nothing else: no text,
    no citations and no follow-up questions. *)
Theorem failure_after_cancel_adds_a_turn w k sig r h e stamp :
  suspended w !! k = Some (AwaitStream sig r h) →
  let w' := run [Cancel; StreamRejected k e stamp] w in
  (∃ t, chatThread (self w') = chatThread (self w) ++ [t]
        ∧ turnHas t [] None None stamp false
            (Some {| message := if decide (errorCode e = Some 400%Z)
                                then INVALID_REQUEST_ERROR else API_ERROR_MESSAGE |}))
  ∧ hasAPIError (self w') = true
  ∧ suspended w' = delete k (suspended w).
Proof.
  intros Hk w'. subst w'. cbn [run foldl]. set (w1 := step Cancel w).
  assert (suspended w1 !! k = Some (AwaitStream sig r h)) as Hk1 by exact Hk.
  pose proof (step_rejects w1 k _ e stamp Hk1) as Hstep. cbn [rejects] in Hstep.
  rewrite Hstep. cbn [self suspended].
  destruct (catchClause_flags e stamp (self w1)) as (Herr & _).
  split_and!; [|done|done].
  destruct (catchClause_records e stamp (self w1)) as [_ Hnew].
  destruct Hnew as (t & Hthread & ? & ? & ? & ? & ? & ?); [by left|].
  exists t. split; [exact Hthread|]. by split_and!.
Qed.

End LateSettlements.

(** ** Closed instances *)

Import Demo.



(** A transport call rejected with status 400. *)
Lemma transport_failure_message_and_idle_witness :
  suspended (submitting false) !! 0 = Some (AwaitTransport "chat" "hi")
  ∧ last (chatThread (self failed))
      = Some (errorEntry {| message := INVALID_REQUEST_ERROR |} "10:01")
  ∧ isDisabled (self failed) = false
  ∧ renderChatOrCancelButton (self failed) = SubmitChatButton false.
Proof.
  split; [reflexivity|].
  pose proof (transport_failure_message_and_idle (submitting false) 0
                (AwaitTransport "chat" "hi") (ThrownError (Some 400%Z)) "10:01"
                eq_refl) as (_ & _ & _ & Hd & _ & _ & Hb & _).
  split; [reflexivity|]. split; [exact Hd|exact Hb].
Defined.

(** Submitting with an empty input field. *)
Lemma empty_question_is_not_dispatched_witness :
  sanitize (questionInput (self (chatWorld false))) = ""
  ∧ chatThread (self (step (Submit "10:00") (chatWorld false))) = []
  ∧ transport (step (Submit "10:00") (chatWorld false)) = [].
Proof.
  assert (sanitize (questionInput (self (chatWorld false))) = "") as Hq
    by reflexivity.
  split; [exact Hq|].
  destruct (empty_question_is_not_dispatched "10:00" (chatWorld false) Hq)
    as (Ht & Hc & _).
  split; [exact Ht|exact Hc].
Defined.

(** C2, as stated, fails: a question of three spaces is still blank after
    sanitizing, yet the submission appends a user turn and calls the
    transport. *)
Lemma blank_question_is_dispatched :
  isBlank (sanitize (questionInput (self blankTyped))) = true
  ∧ chatThread (self (step (Submit "10:00") blankTyped))
      = [messageEntry [] [] [] "10:00" true "   "]
  ∧ chatThread (self blankTyped) = []
  ∧ request_question <$> transport (step (Submit "10:00") blankTyped) = ["   "]
  ∧ transport blankTyped = [].
Proof. by vm_compute. Qed.

(** The button after a dispatch and after the stream has started. *)
Lemma resubmission_is_gated_by_the_button_witness :
  sanitize (questionInput (self (step (Typed "hi") (chatWorld true)))) ≠ ""
  ∧ isDisabled (self (submitting true)) = true
  ∧ renderChatOrCancelButton (self (submitting true)) ≠ SubmitChatButton false
  ∧ renderChatOrCancelButton (self streaming) = CancelChatButton.
Proof.
  assert (sanitize (questionInput (self (step (Typed "hi") (chatWorld true)))) ≠ "")
    as Hq by (vm_compute; discriminate).
  split; [exact Hq|].
  destruct (resubmission_is_gated_by_the_button "10:00" _ Hq)
    as (_ & _ & Hd & Hb & Hs).
  split; [exact Hd|]. split; [exact Hb|].
  exact (Hs 0 "chat" "hi" (Streamed 7) "10:01" eq_refl eq_refl).
Defined.

(** C3, as stated, fails: while the first exchange is parked at the
    transport (disabled and awaiting-response flags set), a second call of
    the submit handler is not rejected: it appends a second user turn,
    calls the transport again and parks a second activation.  The same
    happens through the rendered controls after a reset, which re-enables
    the submit button while the first exchange is still parked. *)
Lemma second_submit_in_flight_is_dispatched :
  inFlight (submitting true)
  ∧ isDisabled (self (submitting true)) = true
  ∧ isAwaitingResponse (self (submitting true)) = true
  ∧ chatThread (self (submitting true)) = [messageEntry [] [] [] "10:00" true "hi"]
  ∧ chatThread (self (step (Submit "10:01") (submitting true)))
      = [messageEntry [] [] [] "10:00" true "hi"; messageEntry [] [] [] "10:01" true "hi"]
  ∧ length (transport (step (Submit "10:01") (submitting true))) = 2
  ∧ suspended (step (Submit "10:01") (submitting true))
      = [AwaitTransport "chat" "hi"; AwaitTransport "chat" "hi"]
  ∧ renderChatOrCancelButton (self (step Reset (submitting true))) = SubmitChatButton false
  ∧ suspended (run [Reset; Submit "10:01"] (submitting true))
      = [AwaitTransport "chat" "hi"; AwaitTransport "chat" "hi"].
Proof. by vm_compute. Qed.


(** A question asked in single-turn mode and answered in one shot. *)
Lemma user_turn_is_echoed_in_chat_mode_only_witness :
  sanitize (questionInput (self askTyped)) ≠ ""
  ∧ suspended (step (Submit "10:00") askTyped) !! 0
      = Some (AwaitTransport "ask" "refund policy?")
  ∧ chatThread (self (step (Submit "10:00") askTyped)) = chatThread (self askTyped)
  ∧ ∃ t, chatThread (self (step (TransportResolved 0 okResponse "10:01")
                             (step (Submit "10:00") askTyped)))
           = chatThread (self askTyped) ++ [t]
         ∧ isUserMessage t = false.
Proof.
  assert (sanitize (questionInput (self askTyped)) ≠ "") as Hq
    by (vm_compute; discriminate).
  assert (interactionModel (self askTyped) ≠ "chat") as Hask
    by (vm_compute; discriminate).
  split; [exact Hq|].
  destruct (user_turn_is_echoed_in_chat_mode_only "10:00" askTyped Hq)
    as (Hparked & _ & Hnoecho).
  destruct (Hnoecho Hask) as [Hsame Hlater].
  split; [exact Hparked|]. split; [exact Hsame|].
  apply (Hlater okResponse "10:01"). right. by eexists.
Defined.

(** Cancelling while the stream is being read. *)
Lemma cancel_is_not_a_failure_witness :
  isProcessingResponse (self (step Cancel streaming)) = false
  ∧ controllers (step Cancel streaming) !! 0 = Some true
  ∧ hasAPIError (self (step Cancel streaming)) = hasAPIError (self streaming)
  ∧ chatThread (self (step Cancel streaming)) = chatThread (self streaming).
Proof.
  pose proof (cancel_is_not_a_failure
                [Typed "hi"; Submit "10:00"; TransportResolved 0 (Streamed 7) "10:01"]
                "chat" chatHttpOptions_url true ∅) as Hcancel.
  vm_compute in Hcancel. vm_compute.
  destruct Hcancel as (Hflag & Habort & Herr & Hthread & _).
  split; [exact Hflag|]. split; [|split; [exact Herr|exact Hthread]].
  apply (Habort 0). left.
Defined.

(** Markup typed into the field or dictated does not reach the request. *)
Lemma only_sanitized_text_is_dispatched_witness :
  sanitize (questionInput (self (step (Typed "<b>hi</b>") (chatWorld false)))) ≠ ""
  ∧ (∃ call, transport (step (Submit "10:00")
                          (step (Typed "<b>hi</b>") (chatWorld false))) = [call]
             ∧ request_question call = "bhi/b")
  ∧ questionInput (handleVoiceInput (Some (String "013" (String "010" "<i>x</i>"))) (self (chatWorld false)))
    = "ix/i"
  ∧ onlySanitizedText streaming.
Proof.
  assert (sanitize (questionInput (self (step (Typed "<b>hi</b>") (chatWorld false)))) ≠ "")
    as Hq by (vm_compute; discriminate).
  split; [exact Hq|].
  pose proof (only_sanitized_text_is_dispatched "10:00"
                (step (Typed "<b>hi</b>") (chatWorld false))
                (Some (String "013" (String "010" "<i>x</i>"))) (self (chatWorld false))
                [Typed "hi"; Submit "10:00"; TransportResolved 0 (Streamed 7) "10:01"]
                "chat" chatHttpOptions_url true ∅) as (Hsubmit & Hvoice & _ & Hall).
  destruct (Hsubmit Hq) as [Hcall _]. clear Hsubmit Hq.
  vm_compute in Hcall, Hvoice, Hall. vm_compute.
  split; [exact Hcall|]. split; [exact Hvoice|exact Hall].
Defined.

(** Resetting while the stream is being read. *)
Lemma reset_clears_thread_and_cancels_witness :
  chatThread (self (step Reset streaming)) = []
  ∧ isDisabled (self (step Reset streaming)) = false
  ∧ isProcessingResponse (self (step Reset streaming)) = false
  ∧ controllers (step Reset streaming) !! 0 = Some true
  ∧ controllers (step Reset streaming) !! abortController (self (step Reset streaming))
      = Some false.
Proof.
  pose proof (reset_clears_thread_and_cancels
                [Typed "hi"; Submit "10:00"; TransportResolved 0 (Streamed 7) "10:01"]
                "chat" chatHttpOptions_url true ∅) as Hreset.
  vm_compute in Hreset. vm_compute.
  destruct Hreset as (Hthread & Hdis & _ & _ & _ & Hproc & Habort & Hfresh & _).
  split; [exact Hthread|]. split; [exact Hdis|]. split; [exact Hproc|].
  split; [|exact Hfresh].
  apply (Habort 0). left.
Defined.

(** The signal handed to the parser when the stream starts. *)
Lemma fresh_controller_after_cancel_witness :
  suspended (submitting true) !! 0 = Some (AwaitTransport "chat" "hi")
  ∧ useStream (self (submitting true)) = true
  ∧ controllers (step Cancel (submitting true))
      !! abortController (self (step Cancel (submitting true))) = Some false
  ∧ ∃ sig,
      suspended streaming = delete 0 (suspended (submitting true))
                            ++ [AwaitStream sig (Streamed 7)
                                  {| generation := threadGeneration (self streaming);
                                     arrayLength := length (chatThread (self streaming)) |}]
      ∧ sig = abortController (self streaming)
      ∧ controllers streaming !! sig = Some false.
Proof.
  split; [reflexivity|]. split; [reflexivity|].
  destruct (fresh_controller_after_cancel [Typed "hi"; Submit "10:00"]
              "chat" chatHttpOptions_url true ∅)
    as [(_ & Hfresh & _) Hstart].
  split; [exact Hfresh|].
  exact (Hstart 0 "chat" "hi" (Streamed 7) "10:01" eq_refl eq_refl).
Defined.

(** ** Closed instances of the further properties *)

Import Sample.

(** A question answered in one shot by a response without thoughts. *)
Lemma non_streamed_exchange_witness :
  sanitize (questionInput (self typed)) ≠ ""
  ∧ useStream (self typed) = false
  ∧ firstMessage thoughtfulResponse = Some firstChoice
  ∧ (∃ user answer,
       chatThread (self (run [Submit "10:00";
                              TransportResolved 0 thoughtfulResponse "10:01"] typed))
         = chatThread (self typed) ++ user ++ [answer]
       ∧ userTurnEchoed "chat" "hi" "10:00" user
       ∧ turnHas answer [ {| value := "Refunds within 30 days"; followingSteps := [] |} ]
           (Some []) (Some []) "10:01" false None)
  ∧ chatThread (self (run [Submit "10:00";
                           TransportResolved 0 thoughtfulResponse "10:01"] typed))
    = [ {| text := [ {| value := "hi"; followingSteps := [] |} ];
           followupQuestions := Some []; citations := Some [];
           timestamp := "10:00"; isUserMessage := true; error := None |};
        {| text := [ {| value := "Refunds within 30 days"; followingSteps := [] |} ];
           followupQuestions := Some []; citations := Some [];
           timestamp := "10:01"; isUserMessage := false; error := None |} ]
  ∧ chatThoughts (self (run [Submit "10:00";
                             TransportResolved 0 thoughtfulResponse "10:01"] typed))
      = Some ""
  ∧ chatDataPoints (self (run [Submit "10:00";
                               TransportResolved 0 thoughtfulResponse "10:01"] typed))
      = ["d1"].
Proof.
  assert (sanitize (questionInput (self typed)) ≠ "") as Hq
    by (vm_compute; discriminate).
  assert (useStream (self typed) = false) as Hs by reflexivity.
  assert (firstMessage thoughtfulResponse = Some firstChoice) as Hm by reflexivity.
  split; [exact Hq|]. split; [exact Hs|]. split; [exact Hm|].
  pose proof (non_streamed_exchange typed "10:00" thoughtfulResponse firstChoice "10:01"
                Hq Hs Hm) as Hx.
  clear Hq Hs Hm. vm_compute in Hx. vm_compute.
  destruct Hx as (Hthread & _ & _ & _ & _ & _ & _ & Hthoughts & Hpoints & _).
  split; [exact Hthread|]. split; [reflexivity|].
  split; [exact Hthoughts|exact Hpoints].
Defined.

(** A question answered by a stream that is read in two rounds and ends
    normally. *)
Lemma streamed_exchange_witness :
  sanitize (questionInput (self typedStream)) ≠ ""
  ∧ useStream (self typedStream) = true
  ∧ chatThread (self (run [Submit "10:00"; TransportResolved 0 (Streamed 7) "10:01";
                           ChunkRead 0 hel] typedStream))
    = [ {| text := [ {| value := "hi"; followingSteps := [] |} ];
           followupQuestions := Some []; citations := Some [];
           timestamp := "10:00"; isUserMessage := true; error := None |};
        {| text := [ {| value := "Hel"; followingSteps := [] |} ];
           followupQuestions := Some []; citations := Some [];
           timestamp := "10:01"; isUserMessage := false; error := None |} ]
  ∧ (∃ user answer,
       chatThread (self (run [Submit "10:00"; TransportResolved 0 (Streamed 7) "10:01";
                              ChunkRead 0 hel; ChunkRead 0 hello;
                              StreamResolved 0 streamResult] typedStream))
         = chatThread (self typedStream) ++ user ++ [answer]
       ∧ userTurnEchoed "chat" "hi" "10:00" user
       ∧ filledBy [hel; hello] answer
       ∧ timestamp answer = "10:01"
       ∧ isUserMessage answer = false
       ∧ error answer = None)
  ∧ suspended (run [Submit "10:00"; TransportResolved 0 (Streamed 7) "10:01";
                    ChunkRead 0 hel; ChunkRead 0 hello;
                    StreamResolved 0 streamResult] typedStream) = []
  ∧ chatThoughts (self (run [Submit "10:00"; TransportResolved 0 (Streamed 7) "10:01";
                             ChunkRead 0 hel; ChunkRead 0 hello;
                             StreamResolved 0 streamResult] typedStream))
      = Some "searched the handbook".
Proof.
  assert (sanitize (questionInput (self typedStream)) ≠ "") as Hq
    by (vm_compute; discriminate).
  assert (useStream (self typedStream) = true) as Hs by reflexivity.
  split; [exact Hq|]. split; [exact Hs|]. split; [reflexivity|].
  pose proof (streamed_exchange [Typed "hi"] "chat" chatHttpOptions_url true ∅
                "10:00" (Streamed 7) "10:01" [hel; hello] streamResult Hq Hs) as Hx.
  clear Hq Hs. vm_compute in Hx. vm_compute.
  destruct Hx as (_ & _ & _ & Hthread & Hparked & _ & _ & _ & _ & Hthoughts & _).
  split; [exact Hthread|]. split; [exact Hparked|exact Hthoughts].
Defined.

(** A rejected transport call followed by a second click on submit. *)
Lemma failed_exchange_can_be_retried_witness :
  sanitize (questionInput (self typed)) ≠ ""
  ∧ questionInput (self (run [Submit "10:00";
                              TransportRejected 0 (ThrownError (Some 400%Z)) "10:01"]
                           typed)) = "hi"
  ∧ request_question
      <$> transport (run [Submit "10:00";
                          TransportRejected 0 (ThrownError (Some 400%Z)) "10:01";
                          Submit "10:02"] typed) = ["hi"; "hi"].
Proof.
  assert (sanitize (questionInput (self typed)) ≠ "") as Hq
    by (vm_compute; discriminate).
  split; [exact Hq|].
  pose proof (failed_exchange_can_be_retried typed "10:00" (ThrownError (Some 400%Z))
                "10:01" "10:02" Hq) as Hx.
  clear Hq. vm_compute in Hx. vm_compute.
  destruct Hx as (Hinput & _ & _ & _ & _ & (call & call' & Hcalls & Hq1 & Hq2) & _).
  split; [exact Hinput|]. injection Hcalls as <- <-.
  exact (f_equal2 (λ a b, [a; b]) Hq1 Hq2).
Defined.

(** The host sets [top]; the configuration sets [top] and [temperature]. *)
Lemma request_overrides_prefer_the_host_witness :
  @sanitize collaborators (questionInput (self overridden)) ≠ ""
  ∧ ∃ call,
      last (transport (@step collaborators config (Submit "10:00") overridden)) = Some call
      ∧ request_overrides call !! "top" = Some "5"
      ∧ request_overrides call !! "temperature" = Some "0.3"
      ∧ http_url call = "http://example.org".
Proof.
  assert (@sanitize collaborators (questionInput (self overridden)) ≠ "") as Hq
    by (vm_compute; discriminate).
  split; [exact Hq|].
  destruct (@request_overrides_prefer_the_host collaborators config "10:00" overridden Hq)
    as (call & Hlast & _ & Hurl & _ & Hover).
  exists call. split; [exact Hlast|].
  split; [|split]; [rewrite Hover; reflexivity..|rewrite Hurl; reflexivity].
Defined.

(** After a rejected transport call there is nothing to copy. *)
Lemma copy_after_failure_witness :
  suspended (submitting false) !! 0 = Some (AwaitTransport "chat" "hi")
  ∧ openTurn (self (submitting false)) = None
  ∧ responseToCopy (self failed) = None.
Proof.
  split; [reflexivity|]. split; [reflexivity|].
  pose proof (copy_after_failure (submitting false) 0 (AwaitTransport "chat" "hi")
                (ThrownError (Some 400%Z)) "10:01" eq_refl) as Hx.
  vm_compute in Hx. vm_compute. exact Hx.
Defined.

(** Clearing the typed question, then clicking submit. *)
Lemma submit_after_clearing_is_a_no_op_witness :
  sanitize "" = ""
  ∧ questionInput (self (step ResetInputField typed)) = ""
  ∧ transport (run [ResetInputField; Submit "10:00"] typed) = [].
Proof.
  assert (sanitize "" = "") as Hempty by reflexivity.
  split; [exact Hempty|].
  pose proof (submit_after_clearing_is_a_no_op typed ResetInputField "10:00" Hempty
                (or_introl eq_refl)) as Hx.
  clear Hempty. vm_compute in Hx. vm_compute.
  destruct Hx as (Hinput & _ & Htransport & _).
  split; [exact Hinput|exact Htransport].
Defined.

(** The first object pushed once more after the list. *)
Lemma repeated_citations_are_attached_once_witness :
  (∀ y, y ∈ [a1] → Citation.oid y ∈ Citation.oid <$> [a1; b1])
  ∧ setSpread ([a1; b1] ++ [a1; b1]) = [a1; b1].
Proof.
  assert (∀ y, y ∈ [a1] → Citation.oid y ∈ Citation.oid <$> [a1; b1]) as Hagain.
  { intros y ->%list_elem_of_singleton. vm_compute. left. }
  split; [exact Hagain|].
  destruct (repeated_citations_are_attached_once [a1; b1] [a1] [] [] "10:02" false
              "See a.md" (self (chatWorld false)) Hagain) as (_ & Htwice & _).
  rewrite Htwice. reflexivity.
Defined.

(** A click on the citation of a.md with the aside closed. *)
Lemma markdown_citation_click_opens_the_aside_witness :
  Citation.text a1 = "a" +:+ ".md"
  ∧ Aside.selectedCitation (Aside.handleCitationClick a1 asideClosed).1 = Some a1
  ∧ Aside.selectedAsideTab (Aside.handleCitationClick a1 asideClosed).1
      = Aside.TabCitations.
Proof.
  assert (Citation.text a1 = "a" +:+ ".md") as Htext by reflexivity.
  split; [exact Htext|].
  pose proof (markdown_citation_click_opens_the_aside a1 asideClosed "a" Htext) as Hx.
  clear Htext. vm_compute in Hx. vm_compute.
  destruct Hx as (_ & Hselected & _ & Htab & _).
  split; [exact Hselected|exact Htab].
Defined.

(** Two clicks on a listening button. *)
Lemma voice_button_toggles_witness :
  VoiceInputButton.speechRecognition listening
    = Some {| VoiceInputButton.continuous := true; VoiceInputButton.lang := "en-US";
              VoiceInputButton.calls := [VoiceInputButton.Start] |}
  ∧ VoiceInputButton.calls
      <$> VoiceInputButton.speechRecognition
            (VoiceInputButton.run [VoiceInputButton.Click; VoiceInputButton.Click] listening)
    = Some [VoiceInputButton.Start; VoiceInputButton.Stop; VoiceInputButton.Start].
Proof.
  split; [reflexivity|].
  pose proof (voice_button_toggles listening _ eq_refl) as Hx.
  vm_compute in Hx. vm_compute.
  destruct Hx as (_ & _ & _ & _ & _ & Hcalls). exact Hcalls.
Defined.

(** An error while listening, then two clicks. *)
Lemma voice_error_needs_two_clicks_to_resume_witness :
  VoiceInputButton.speechRecognition listening
    = Some {| VoiceInputButton.continuous := true; VoiceInputButton.lang := "en-US";
              VoiceInputButton.calls := [VoiceInputButton.Start] |}
  ∧ VoiceInputButton.enableVoiceListening listening = true
  ∧ VoiceInputButton.enableVoiceListening
      (VoiceInputButton.run [VoiceInputButton.RecognitionError; VoiceInputButton.Click]
         listening) = false
  ∧ VoiceInputButton.calls
      <$> VoiceInputButton.speechRecognition
            (VoiceInputButton.run [VoiceInputButton.RecognitionError;
                                   VoiceInputButton.Click; VoiceInputButton.Click]
               listening)
    = Some [VoiceInputButton.Start; VoiceInputButton.Stop; VoiceInputButton.Stop;
            VoiceInputButton.Start].
Proof.
  split; [reflexivity|]. split; [reflexivity|].
  pose proof (voice_error_needs_two_clicks_to_resume listening _ eq_refl eq_refl) as Hx.
  vm_compute in Hx. vm_compute.
  destruct Hx as (_ & _ & Hidle & _ & _ & Hcalls).
  split; [exact Hidle|exact Hcalls].
Defined.

(** Two results dictated, the second starting on a new line, then a
    third. *)
Lemma dictation_replaces_the_question_witness :
  VoiceInputButton.onresult [["hello"; "hullo"]; [String "010" "world"]]
    = Some ("hello" +:+ String "010" "world")
  ∧ questionInput (handleVoiceInput (Some ("hello" +:+ String "010" "world"))
                     (self (chatWorld false)))
      = "helloworld".
Proof.
  assert (VoiceInputButton.onresult [["hello"; "hullo"]; [String "010" "world"]]
          = Some ("hello" +:+ String "010" "world")) as Hin by reflexivity.
  split; [exact Hin|].
  destruct (dictation_replaces_the_question [["hello"; "hullo"]; [String "010" "world"]]
              [["!"]] _ (self (chatWorld false)) Hin) as (_ & Hinput & _).
  rewrite Hinput. reflexivity.
Defined.

(** A reset while the transport is pending, then the response. *)
Lemma response_after_reset_is_still_appended_witness :
  suspended (submitting false) !! 0 = Some (AwaitTransport "chat" "hi")
  ∧ useStream (self (submitting false)) = false
  ∧ firstMessage thoughtfulResponse = Some firstChoice
  ∧ (∃ answer,
       chatThread (self (run [Reset; TransportResolved 0 thoughtfulResponse "10:01"]
                           (submitting false))) = [answer]
       ∧ turnHas answer [ {| value := "Refunds within 30 days"; followingSteps := [] |} ]
           (Some []) (Some []) "10:01" false None)
  ∧ chatThread (self (run [Reset; TransportResolved 0 thoughtfulResponse "10:01"]
                        (submitting false)))
    = [ {| text := [ {| value := "Refunds within 30 days"; followingSteps := [] |} ];
           followupQuestions := Some []; citations := Some [];
           timestamp := "10:01"; isUserMessage := false; error := None |} ]
  ∧ chatListShown (render (self (run [Reset;
                                      TransportResolved 0 thoughtfulResponse "10:01"]
                                   (submitting false)))) = false.
Proof.
  split; [reflexivity|]. split; [reflexivity|]. split; [reflexivity|].
  pose proof (response_after_reset_is_still_appended (submitting false) 0 "chat" "hi"
                thoughtfulResponse firstChoice "10:01" eq_refl eq_refl eq_refl) as Hx.
  vm_compute in Hx. vm_compute.
  destruct Hx as (Hthread & Hlist & _).
  split; [exact Hthread|]. split; [reflexivity|exact Hlist].
Defined.

(** A cancel while the stream is read, then the failure of the read. *)
Lemma failure_after_cancel_adds_a_turn_witness :
  suspended streaming !! 0
    = Some (AwaitStream 0 (Streamed 7) {| generation := 0; arrayLength := 2 |})
  ∧ (∃ t, chatThread (self (run [Cancel; StreamRejected 0 ThrownNullish "10:02"]
                              streaming))
          = chatThread (self streaming) ++ [t]
          ∧ turnHas t [] None None "10:02" false (Some {| message := "api error" |}))
  ∧ error <$> chatThread (self (run [Cancel; StreamRejected 0 ThrownNullish "10:02"]
                                  streaming))
    = [None; None; Some {| message := "api error" |}].
Proof.
  split; [reflexivity|].
  pose proof (failure_after_cancel_adds_a_turn streaming 0 0 (Streamed 7)
                {| generation := 0; arrayLength := 2 |} ThrownNullish
                "10:02" eq_refl) as Hx.
  vm_compute in Hx. vm_compute.
  destruct Hx as (Hthread & _).
  split; [exact Hthread|reflexivity].
Defined.

(** A click, an error and two more clicks. *)
Lemma voice_recognition_is_never_started_twice_witness :
  VoiceInputButton.speechRecognition
    (VoiceInputButton.run [VoiceInputButton.Click; VoiceInputButton.RecognitionError;
                           VoiceInputButton.Click; VoiceInputButton.Click]
       (VoiceInputButton.connect true))
    = Some {| VoiceInputButton.continuous := true; VoiceInputButton.lang := "en-US";
              VoiceInputButton.calls :=
                [VoiceInputButton.Start; VoiceInputButton.Stop; VoiceInputButton.Stop;
                 VoiceInputButton.Start] |}
  ∧ ∀ before after,
      [VoiceInputButton.Start; VoiceInputButton.Stop; VoiceInputButton.Stop;
       VoiceInputButton.Start]
      ≠ before ++ [VoiceInputButton.Start; VoiceInputButton.Start] ++ after.
Proof.
  split; [reflexivity|].
  exact (proj1 (proj2 (proj2
           (voice_recognition_is_never_started_twice
              [VoiceInputButton.Click; VoiceInputButton.RecognitionError;
               VoiceInputButton.Click; VoiceInputButton.Click] true _ eq_refl)))).
Defined.
